(** * A Rocq model of the forex notification bot (bot4.py)

    The development embeds the signal engine, the snapshot cache, the alert
    store and the dialog handlers of [bot4.py] as Rocq functions and states
    the properties of the design document against them.

    Conventions.
    - A Python [float] is a binary64 number: [PrimFloat.float], with the
      comparisons of IEEE 754 (every comparison with a NaN is false).
    - A [datetime] is an instant counted in microseconds, the resolution of
      Python's [datetime]; a [timedelta] is a difference of instants.
    - A Python [str] is the byte string of its UTF-8 encoding.  Equality and
      substring tests agree with Python's on code points.  Whitespace is the
      ASCII part of [str.isspace].
    - A chat id is an integer; the JSON stores key their entries by
      [str(chat_id)], which is injective, so the model keys them by the
      integer itself.
    - The stores' [lock] flag is false whenever a method is entered (it is
      set and reset inside one method call, and no method awaits): the spin
      loop on it never runs and is not modelled.
    - A coroutine is modelled as running to its end without another one
      interleaved at its [await]s.
    - Writing a JSON file succeeds.  The calls that leave the process are
      inputs of the model: the provider's answer and the indicator
      library's results are fields of [market] and [frame], and the message
      transport is the function [send_message]. *)

From Stdlib Require Import ZArith String Ascii List Floats.
From Stdlib Require DecimalString DecimalNat.
From stdpp Require Import base option list gmap strings fin_maps.
Import ListNotations.

Set Warnings "-inexact-float".
Open Scope string_scope.
Open Scope Z_scope.

(** ** Python built-ins used by the program *)

(** [min(a, b)]: the second argument wins only when it is strictly smaller. *)
Definition py_min (a b : float) : float := if (b <? a)%float then b else a.

(** [max(a, b)]: the second argument wins only when it is strictly greater. *)
Definition py_max (a b : float) : float := if (a <? b)%float then b else a.

(** [needle in hay] on strings. *)
Fixpoint contains (needle hay : string) : bool :=
  String.prefix needle hay ||
  match hay with
  | EmptyString => false
  | String _ rest => contains needle rest
  end.

(** ASCII whitespace, as [str.isspace] has it: TAB, LF, VT, FF, CR, the four
    separators 0x1c..0x1f, and the space. *)
Definition is_space (c : ascii) : bool :=
  let n := N_of_ascii c in
  ((9 <=? n) && (n <=? 13) || (28 <=? n) && (n <=? 32))%N.

Fixpoint lstrip (s : string) : string :=
  match s with
  | String c rest => if is_space c then lstrip rest else s
  | EmptyString => EmptyString
  end.

(** Removes trailing whitespace: a character is kept when something that is
    not whitespace follows it or when it is not whitespace itself. *)
Fixpoint rstrip (s : string) : string :=
  match s with
  | EmptyString => EmptyString
  | String c rest =>
      match rstrip rest with
      | EmptyString => if is_space c then EmptyString else String c EmptyString
      | kept => String c kept
      end
  end.

(** [s.strip()]. *)
Definition strip (s : string) : string := rstrip (lstrip s).

(** [s.split(sep)] for a one-character separator: never the empty list. *)
Fixpoint split (sep : ascii) (s : string) : list string :=
  match s with
  | EmptyString => [EmptyString]
  | String c rest =>
      if Ascii.eqb c sep then EmptyString :: split sep rest
      else match split sep rest with
           | tok :: toks => String c tok :: toks
           | [] => [String c EmptyString]
           end
  end.

Definition digit_value (c : ascii) : option Z :=
  let n := N_of_ascii c in
  if ((48 <=? n) && (n <=? 57))%N then Some (Z.of_N n - 48) else None.

(** The digits after a first digit of an integer literal: digits, with single
    underscores allowed between two digits. *)
Fixpoint int_digits (acc : Z) (s : string) : option Z :=
  match s with
  | EmptyString => Some acc
  | String c rest =>
      match digit_value c with
      | Some d => int_digits (10 * acc + d) rest
      | None =>
          if Ascii.eqb c "_" then
            match rest with
            | String c' rest' =>
                match digit_value c' with
                | Some d' => int_digits (10 * acc + d') rest'
                | None => None
                end
            | EmptyString => None
            end
          else None
      end
  end.

Definition int_unsigned (s : string) : option Z :=
  match s with
  | String c rest =>
      match digit_value c with
      | Some d => int_digits d rest
      | None => None
      end
  | EmptyString => None
  end.

(** The whitespace [int] skips around the literal of an ASCII text: TAB, LF,
    VT, FF, CR and the space.  The separators 0x1c..0x1f, which [str.strip]
    removes, are not skipped: [int] raises on them. *)
Definition is_blank (c : ascii) : bool :=
  let n := N_of_ascii c in
  ((9 <=? n) && (n <=? 13) || (n =? 32))%N.

Fixpoint skip_blanks (s : string) : string :=
  match s with
  | String c rest => if is_blank c then skip_blanks rest else s
  | EmptyString => EmptyString
  end.

Fixpoint drop_blanks (s : string) : string :=
  match s with
  | EmptyString => EmptyString
  | String c rest =>
      match drop_blanks rest with
      | EmptyString => if is_blank c then EmptyString else String c EmptyString
      | kept => String c kept
      end
  end.

(** [int(text)] in base ten, for an ASCII text; [None] is [ValueError].
    (On other texts [int] also reads the decimal digits and skips the
    whitespace of other scripts.) *)
Definition py_int (text : string) : option Z :=
  match drop_blanks (skip_blanks text) with
  | String "+" rest => int_unsigned rest
  | String "-" rest => Z.opp <$> int_unsigned rest
  | s => int_unsigned s
  end.

(** ** Configuration *)

Definition CACHE_EXPIRY_MINUTES : Z := 5.

(** [timedelta(minutes=m)], in microseconds. *)
Definition timedelta_minutes (m : Z) : Z := m * 60 * 1000000.

(** Common forex symbols (Yahoo Finance format). *)
Definition FOREX_SYMBOLS : gmap string string :=
  <["EUR/USD" := "EURUSD=X"]> (
  <["GBP/USD" := "GBPUSD=X"]> (
  <["USD/JPY" := "USDJPY=X"]> (
  <["USD/CHF" := "USDCHF=X"]> (
  <["AUD/USD" := "AUDUSD=X"]> (
  <["NZD/USD" := "NZDUSD=X"]> (
  <["USD/CAD" := "USDCAD=X"]> (
  <["XAU/USD" := "GC=F"]> ∅))))))).

(** Conversation states. *)
Inductive state :=
| MENU | SETTINGS | ALERTS | SYMBOL_SELECTION
| SET_ALERT_PRICE | SET_ALERT_TYPE
| SET_TIMEZONE | SET_UPDATE_FREQ
| SET_INDICATORS | SET_RISK.

(** The label of the Back button, byte for byte as the source file has it. *)
Definition BACK : string := "â¬…ï¸ Back".

(** ** Data model *)

(** A value of the [signals] dictionary: a number or a label. *)
Inductive value :=
| VNum (x : float)
| VStr (s : string).

(** The [price_data] dictionary.  Its two textual entries are fields; its
    numeric entries (prices, ranges and indicator values) stay a dictionary,
    so that a snapshot may lack any of them. *)
Record snapshot := {
  symbol : string;
  timestamp : Z;
  fields : gmap string float
}.

(** A chat's stored settings: every key is optional. *)
Record settings := {
  timezone : option string;
  update_freq : option Z;
  indicators : option (list string);
  notification : option bool;
  risk_appetite : option string;
  symbols : option (list string)
}.

Definition no_settings : settings :=
  {| timezone := None; update_freq := None; indicators := None;
     notification := None; risk_appetite := None; symbols := None |}.

(** The assignment [settings[key] = value] of [update_setting], one
    constructor per key the handlers write. *)
Inductive setting :=
| Timezone (tz : string)
| UpdateFreq (minutes : Z)
| Indicators (names : list string)
| Notification (on : bool)
| RiskAppetite (level : string)
| Symbols (names : list string).

Definition assign (s : setting) (st : settings) : settings :=
  match s with
  | Timezone tz =>
      {| timezone := Some tz; update_freq := update_freq st;
         indicators := indicators st; notification := notification st;
         risk_appetite := risk_appetite st; symbols := symbols st |}
  | UpdateFreq m =>
      {| timezone := timezone st; update_freq := Some m;
         indicators := indicators st; notification := notification st;
         risk_appetite := risk_appetite st; symbols := symbols st |}
  | Indicators l =>
      {| timezone := timezone st; update_freq := update_freq st;
         indicators := Some l; notification := notification st;
         risk_appetite := risk_appetite st; symbols := symbols st |}
  | Notification b =>
      {| timezone := timezone st; update_freq := update_freq st;
         indicators := indicators st; notification := Some b;
         risk_appetite := risk_appetite st; symbols := symbols st |}
  | RiskAppetite r =>
      {| timezone := timezone st; update_freq := update_freq st;
         indicators := indicators st; notification := notification st;
         risk_appetite := Some r; symbols := symbols st |}
  | Symbols l =>
      {| timezone := timezone st; update_freq := update_freq st;
         indicators := indicators st; notification := notification st;
         risk_appetite := risk_appetite st; symbols := Some l |}
  end.

(** [{**a, **b}]: the entries of [b] win. *)
Definition merge (a b : settings) : settings :=
  {| timezone := timezone b ∪ timezone a;
     update_freq := update_freq b ∪ update_freq a;
     indicators := indicators b ∪ indicators a;
     notification := notification b ∪ notification a;
     risk_appetite := risk_appetite b ∪ risk_appetite a;
     symbols := symbols b ∪ symbols a |}.

(** ** UserSettings *)

(** The in-memory dictionary and the content of SETTINGS_FILE. *)
Record UserSettings := {
  user_settings_dict : gmap Z settings;
  user_settings_file : gmap Z settings
}.

Definition default_settings : settings :=
  {| timezone := Some "UTC";
     update_freq := Some 30;
     indicators := Some ["RSI"; "ATR"; "MACD"];
     notification := Some true;
     risk_appetite := Some "medium";
     symbols := Some ["EUR/USD"] |}.

Definition get_user_settings (us : UserSettings) (chat_id : Z) : settings :=
  merge default_settings (default no_settings (user_settings_dict us !! chat_id)).

(** Writes the key, then dumps the whole dictionary to the file. *)
Definition update_setting (us : UserSettings) (chat_id : Z) (s : setting)
  : bool * UserSettings :=
  let d := user_settings_dict us in
  let d := match d !! chat_id with
           | Some _ => d
           | None => <[chat_id := no_settings]> d
           end in
  let d := alter (assign s) chat_id d in
  (true, {| user_settings_dict := d; user_settings_file := d |}).

(** ** Signal engine *)

(** The classification of line 335:
    ["NEUTRAL" if 30 <= rsi <= 70 else "OVERBOUGHT" if rsi > 70 else "OVERSOLD"]. *)
Definition rsi_signal (rsi : float) : string :=
  if ((30 <=? rsi) && (rsi <=? 70))%float then "NEUTRAL"
  else if (70 <? rsi)%float then "OVERBOUGHT"
  else "OVERSOLD".

(** ["BULLISH" if MACD > MACD_Signal else "BEARISH"]. *)
Definition macd_signal (macd macd_sig : float) : string :=
  if (macd_sig <? macd)%float then "BULLISH" else "BEARISH".

(** [{'low': 0.3, 'medium': 0.5, 'high': 0.7}.get(risk_appetite, 0.5)]. *)
Definition risk_factor (risk : string) : float :=
  if String.eqb risk "low" then 0.3%float
  else if String.eqb risk "medium" then 0.5%float
  else if String.eqb risk "high" then 0.7%float
  else 0.5%float.

(** The body of [calculate_trading_signals] once the settings are chosen.
    [None] is the [except] branch: a missing key raises [KeyError]. *)
Definition signals_of (st : settings) (price_data : snapshot)
  : option (gmap string value) :=
  let pd := fields price_data in
  current_price ← pd !! "current_price";
  h1_low ← pd !! "h1_low";
  h4_low ← pd !! "h4_low";
  h1_high ← pd !! "h1_high";
  h4_high ← pd !! "h4_high";
  let support := py_min h1_low h4_low in
  let resistance := py_max h1_high h4_high in
  let signals : gmap string value :=
    <["resistance" := VNum resistance]> (<["support" := VNum support]> ∅) in
  enabled ← indicators st;
  signals ←
    (if bool_decide ("ATR" ∈ enabled) then
       atr ← pd !! "ATR";
       risk ← risk_appetite st;
       let rf := risk_factor risk in
       Some (<["tp_1" := VNum (current_price + atr * 2)%float]> (
             <["sl_moderate" := VNum (support - atr)%float]> (
             <["sl_conservative" := VNum (support - atr * 1.5)%float]> (
             <["aggressive_buy_zone" := VNum (support - atr * (rf * 0.5))%float]> (
             <["safe_buy_zone" := VNum (support - atr * rf)%float]> (
             <["ATR" := VNum atr]> signals))))))
     else Some signals);
  signals ←
    (if bool_decide ("RSI" ∈ enabled) then
       rsi ← pd !! "RSI";
       Some (<["rsi_signal" := VStr (rsi_signal rsi)]> (
             <["RSI" := VNum rsi]> signals))
     else Some signals);
  signals ←
    (if bool_decide ("MACD" ∈ enabled) then
       macd ← pd !! "MACD";
       macd_sig ← pd !! "MACD_Signal";
       macd_hist ← pd !! "MACD_Hist";
       Some (<["macd_signal" := VStr (macd_signal macd macd_sig)]> (
             <["MACD_Hist" := VNum macd_hist]> (
             <["MACD_Signal" := VNum macd_sig]> (
             <["MACD" := VNum macd]> signals))))
     else Some signals);
  Some (<["tp_2" := VNum resistance]> signals).

(** The settings used when no chat id is given. *)
Definition anonymous_settings : settings :=
  {| timezone := None; update_freq := None;
     indicators := Some ["RSI"; "ATR"; "MACD"];
     notification := None; risk_appetite := Some "medium"; symbols := None |}.

(** The settings [calculate_trading_signals] works with; a chat id that is
    [None] or zero is falsy. *)
Definition signal_settings (us : UserSettings) (chat_id : option Z) : settings :=
  match chat_id with
  | Some c => if Z.eqb c 0 then anonymous_settings else get_user_settings us c
  | None => anonymous_settings
  end.

(** [calculate_trading_signals(price_data, chat_id)]. *)
Definition calculate_trading_signals (us : UserSettings)
    (price_data : option snapshot) (chat_id : option Z)
  : option (gmap string value) :=
  match price_data with
  | None => None
  | Some pd => signals_of (signal_settings us chat_id) pd
  end.

(** The recommendation texts, byte for byte as the source file has them. *)
Definition NEUTRAL_WAIT : string := "âšª <b>NEUTRAL</b> - Wait for better entry".
Definition STRONG_BUY : string := "âœ… <b>STRONG BUY</b> - Oversold at safe zone".
Definition SELL : string := "ğŸ”´ <b>SELL</b> - Overbought at resistance".
Definition BUY : string := "ğŸŸ¡ <b>BUY</b> - Aggressive zone".
Definition BULLISH : string := "ğŸŸ¢ <b>BULLISH</b> - MACD crossover".
Definition BEARISH : string := "ğŸ”´ <b>BEARISH</b> - MACD crossover".
Definition NEUTRAL_ERROR : string := "âšª <b>NEUTRAL</b>".

(** [current_price <= v] and [current_price >= v] against a value of the
    signals dictionary; comparing a number with a label raises [TypeError]. *)
Definition le_value (x : float) (v : value) : option bool :=
  match v with
  | VNum y => Some (x <=? y)%float
  | VStr _ => None
  end.

Definition ge_value (x : float) (v : value) : option bool :=
  match v with
  | VNum y => Some (y <=? x)%float
  | VStr _ => None
  end.

(** [signals.get(key) == label]. *)
Definition is_label (v : option value) (label : string) : bool :=
  match v with
  | Some (VStr s) => String.eqb s label
  | _ => false
  end.

(** [{'low': " (Low Risk)", 'medium': "", 'high': " (High Risk)"}
      .get(settings.get('risk_appetite', 'medium'), "")]. *)
Definition risk_note (st : settings) : string :=
  let risk := default "medium" (risk_appetite st) in
  if String.eqb risk "low" then " (Low Risk)"
  else if String.eqb risk "medium" then ""
  else if String.eqb risk "high" then " (High Risk)"
  else "".

(** The [if]/[elif] chain of rules 1 to 3; the right operand of an [and] is
    evaluated only when the left one holds. *)
Definition zone_rules (current_price : float) (signals : gmap string value)
    (recommendation : string) : option string :=
  at_safe ← le_value current_price (default (VNum 0) (signals !! "safe_buy_zone"));
  if at_safe && is_label (signals !! "rsi_signal") "OVERSOLD" then Some STRONG_BUY
  else
    resistance ← signals !! "resistance";
    at_resistance ← ge_value current_price resistance;
    if at_resistance && is_label (signals !! "rsi_signal") "OVERBOUGHT" then Some SELL
    else
      at_aggressive ← le_value current_price
                        (default (VNum 0) (signals !! "aggressive_buy_zone"));
      Some (if (at_aggressive : bool) then BUY else recommendation).

(** [generate_recommendation(price_data, signals, settings)]. *)
Definition generate_recommendation (price_data : snapshot)
    (signals : gmap string value) (st : settings) : string :=
  default NEUTRAL_ERROR (
    current_price ← fields price_data !! "current_price";
    let recommendation := NEUTRAL_WAIT in
    recommendation ←
      (if bool_decide ("RSI" ∈ default ["RSI"] (indicators st)) &&
          bool_decide ("ATR" ∈ default ["ATR"] (indicators st))
       then zone_rules current_price signals recommendation
       else Some recommendation);
    let recommendation :=
      if bool_decide ("MACD" ∈ default ["MACD"] (indicators st)) &&
         contains "NEUTRAL" recommendation
      then (if is_label (signals !! "macd_signal") "BULLISH"
            then BULLISH else BEARISH)
      else recommendation in
    Some (recommendation ++ risk_note st)).

(** ** Snapshot cache *)

Record PriceDataCache := {
  data : gmap string snapshot;
  last_updated : gmap string Z
}.

Definition empty_cache : PriceDataCache := {| data := ∅; last_updated := ∅ |}.

(** [is_valid(symbol)], read at the instant [now]. *)
Definition is_valid (now : Z) (cache : PriceDataCache) (symbol : string) : bool :=
  match data cache !! symbol, last_updated cache !! symbol with
  | Some _, Some stamped =>
      now - stamped <? timedelta_minutes CACHE_EXPIRY_MINUTES
  | _, _ => false
  end.

(** [update(symbol, data)], stamped with the instant [now]. *)
Definition update (now : Z) (cache : PriceDataCache) (symbol : string)
    (d : snapshot) : PriceDataCache :=
  {| data := <[symbol := d]> (data cache);
     last_updated := <[symbol := now]> (last_updated cache) |}.

(** What the fetch path reads off a non-empty price history: the last close
    and open, and the extremes of the four trailing windows. *)
Record quote := {
  q_close : float; q_open : float;
  q_weekly_high : float; q_weekly_low : float;
  q_daily_high : float; q_daily_low : float;
  q_h4_high : float; q_h4_low : float;
  q_h1_high : float; q_h1_low : float
}.

(** The data frame the provider returns, as far as the program looks at it.
    [df_quote] is [None] when reading the columns raises; each indicator is
    [None] when the indicator library raises on this frame. *)
Record frame := {
  df_empty : bool;
  df_quote : option quote;
  ta_atr : option float;
  ta_rsi : option float;
  ta_macd : option float;
  ta_macd_signal : option float;
  ta_macd_diff : option float
}.

(** [get_technical_indicators(data)]: the five values, or the empty
    dictionary when any step raises. *)
Definition get_technical_indicators (df : frame) : gmap string float :=
  default ∅ (
    atr ← ta_atr df;
    rsi ← ta_rsi df;
    macd ← ta_macd df;
    macd_sig ← ta_macd_signal df;
    macd_hist ← ta_macd_diff df;
    Some (<["MACD_Hist" := macd_hist]> (
          <["MACD_Signal" := macd_sig]> (
          <["MACD" := macd]> (
          <["RSI" := rsi]> (
          <["ATR" := atr]> ∅)))))).

(** The numeric entries of the [price_data] literal; the indicator entries
    come last in it, so they win over an equal key. *)
Definition price_fields (q : quote) (indicators : gmap string float)
  : gmap string float :=
  indicators ∪
  <["h1_low" := q_h1_low q]> (
  <["h1_high" := q_h1_high q]> (
  <["h4_low" := q_h4_low q]> (
  <["h4_high" := q_h4_high q]> (
  <["daily_low" := q_daily_low q]> (
  <["daily_high" := q_daily_high q]> (
  <["weekly_low" := q_weekly_low q]> (
  <["weekly_high" := q_weekly_high q]> (
  <["open" := q_open q]> (
  <["current_price" := q_close q]> ∅))))))))).

(** The world around one call of [get_forex_price]: the provider (its answer
    for a Yahoo symbol, [None] when the request raises) and the three
    readings of the clock the call makes. *)
Record market := {
  history : string → option frame;
  now_at_check : Z;
  now_at_stamp : Z;
  now_at_store : Z
}.

(** [get_forex_price(symbol)]: the returned value and the cache afterwards. *)
Definition get_forex_price (w : market) (price_cache : PriceDataCache)
    (sym : string) : option snapshot * PriceDataCache :=
  let yahoo_symbol := default sym (FOREX_SYMBOLS !! sym) in
  if is_valid (now_at_check w) price_cache yahoo_symbol then
    (data price_cache !! yahoo_symbol, price_cache)
  else
    match history w yahoo_symbol with
    | None => (None, price_cache)
    | Some df =>
        if df_empty df then (None, price_cache)
        else
          match df_quote df with
          | None => (None, price_cache)
          | Some q =>
              let indicators := get_technical_indicators df in
              let price_data :=
                {| symbol := sym;
                   timestamp := now_at_stamp w;
                   fields := price_fields q indicators |} in
              (Some price_data,
               update (now_at_store w) price_cache yahoo_symbol price_data)
          end
    end.

(** ** Alert store *)

(** An alert record, its fields named after the keys [symbol], [type],
    [price], [created] and [active].  [a_active] is [None] for a record
    without the key; the program reads it with [alert.get('active', True)]. *)
Record alert := {
  a_symbol : string;
  a_type : string;
  a_price : float;
  a_created : Z;
  a_active : option bool
}.

(** A Python dictionary keyed by chat id, in insertion order. *)
Fixpoint dict_get {V : Type} (k : Z) (d : list (Z * V)) : option V :=
  match d with
  | [] => None
  | (k', v) :: rest => if Z.eqb k k' then Some v else dict_get k rest
  end.

(** [d[k] = v]: in place for a key that is there, at the end otherwise. *)
Fixpoint dict_set {V : Type} (k : Z) (v : V) (d : list (Z * V)) : list (Z * V) :=
  match d with
  | [] => [(k, v)]
  | (k', v') :: rest =>
      if Z.eqb k k' then (k', v) :: rest else (k', v') :: dict_set k v rest
  end.

(** The in-memory dictionary, the content of ALERTS_FILE, and the number of
    times the file has been written. *)
Record AlertManager := {
  alerts : list (Z * list alert);
  alerts_file : list (Z * list alert);
  alerts_writes : nat
}.

Definition save_alerts (m : AlertManager) : AlertManager :=
  {| alerts := alerts m; alerts_file := alerts m;
     alerts_writes := S (alerts_writes m) |}.

Definition with_alerts (m : AlertManager) (d : list (Z * list alert))
  : AlertManager :=
  {| alerts := d; alerts_file := alerts_file m;
     alerts_writes := alerts_writes m |}.

Definition lower_ascii (c : ascii) : ascii :=
  let n := N_of_ascii c in
  if ((65 <=? n) && (n <=? 90))%N then ascii_of_N (n + 32) else c.

(** [s.lower()] on ASCII letters. *)
Fixpoint lower (s : string) : string :=
  match s with
  | EmptyString => EmptyString
  | String c rest => String (lower_ascii c) (lower rest)
  end.

Definition add_alert (now : Z) (m : AlertManager) (chat_id : Z)
    (sym kind : string) (price : float) : bool * AlertManager :=
  let entry := {| a_symbol := sym; a_type := lower kind;
                  a_price := price; a_created := now;
                  a_active := Some true |} in
  let existing := default [] (dict_get chat_id (alerts m)) in
  (true, save_alerts (with_alerts m (dict_set chat_id (existing ++ [entry])%list (alerts m)))).

Definition get_user_alerts (m : AlertManager) (chat_id : Z) : list alert :=
  default [] (dict_get chat_id (alerts m)).

Definition remove_alert (m : AlertManager) (chat_id alert_index : Z)
  : bool * AlertManager :=
  match dict_get chat_id (alerts m) with
  | Some l =>
      if (0 <=? alert_index) && (alert_index <? Z.of_nat (length l)) then
        (true,
         save_alerts (with_alerts m
           (dict_set chat_id (delete (Z.to_nat alert_index) l) (alerts m))))
      else (false, m)
  | None => (false, m)
  end.

(** The alert message sent to a chat: the chat and the four values its text
    is formatted from. *)
Record message := {
  note_chat : Z;
  note_symbol : string;
  note_type : string;
  note_price : float;
  note_current : float
}.

(** The outcome of one pass of [check_alerts]: the store afterwards, the
    messages delivered, and whether the pass ended in its [except] branch. *)
Record pass := {
  pass_manager : AlertManager;
  pass_sent : list message;
  pass_raised : bool
}.

(** [alert['active'] = False]. *)
Definition deactivate (a : alert) : alert :=
  {| a_symbol := a_symbol a; a_type := a_type a; a_price := a_price a;
     a_created := a_created a; a_active := Some false |}.

(** The threshold test:
    [(type == 'above' and current_price >= price) or
     (type == 'below' and current_price <= price)]. *)
Definition crossed (current_price : float) (a : alert) : bool :=
  String.eqb (a_type a) "above" && (a_price a <=? current_price)%float
  || String.eqb (a_type a) "below" && (current_price <=? a_price a)%float.

(** The two tests of the inner loop: the alert is active and on this
    symbol, and the price has crossed its threshold. *)
Definition triggers (current_price : float) (sym : string) (a : alert) : bool :=
  (default true (a_active a) && String.eqb (a_symbol a) sym) &&
  crossed current_price a.

(** What a pass makes of one alert when its message is delivered. *)
Definition fired (current_price : float) (sym : string) (a : alert) : alert :=
  if triggers current_price sym a then deactivate a else a.

Definition alert_message (chat_id : Z) (current_price : float) (sym : string)
    (a : alert) : message :=
  {| note_chat := chat_id; note_symbol := sym; note_type := a_type a;
     note_price := a_price a; note_current := current_price |}.

Section Transport.

(** The message transport: [send_message n] is [false] when
    [bot.send_message] raises on [n]. *)
Variable send_message : message → bool.

(** The inner loop over one chat's alerts: the list afterwards, the
    messages delivered, and [false] when a send raised. *)
Fixpoint scan_alerts (chat_id : Z) (current_price : float) (sym : string)
    (l : list alert) : list alert * list message * bool :=
  match l with
  | [] => ([], [], true)
  | a :: rest =>
      if triggers current_price sym a then
        let n := alert_message chat_id current_price sym a in
        if send_message n then
          let '(rest', sent, ok) := scan_alerts chat_id current_price sym rest in
          (deactivate a :: rest', n :: sent, ok)
        else (a :: rest, [], false)
      else
        let '(rest', sent, ok) := scan_alerts chat_id current_price sym rest in
        (a :: rest', sent, ok)
  end.

(** The outer loop: [done] are the entries already scanned, [todo] those
    still to scan.  The store is saved after each chat's list. *)
Fixpoint scan_chats (current_price : float) (sym : string)
    (m : AlertManager) (done todo : list (Z * list alert)) : pass :=
  match todo with
  | [] => {| pass_manager := m; pass_sent := []; pass_raised := false |}
  | (chat_id, l) :: rest =>
      let '(l', sent, ok) := scan_alerts chat_id current_price sym l in
      let m' := with_alerts m (done ++ (chat_id, l') :: rest)%list in
      if ok then
        let p := scan_chats current_price sym (save_alerts m')
                   (done ++ [(chat_id, l')])%list rest in
        {| pass_manager := pass_manager p;
           pass_sent := (sent ++ pass_sent p)%list;
           pass_raised := pass_raised p |}
      else {| pass_manager := m'; pass_sent := sent; pass_raised := true |}
  end.

(** [check_alerts(current_price, symbol)]. *)
Definition check_alerts (current_price : float) (sym : string)
    (m : AlertManager) : pass :=
  scan_chats current_price sym m [] (alerts m).

End Transport.

(** ** Dialog handlers *)

(** [context.user_data]. *)
Record user_data := {
  alert_setup : option bool;
  alert_symbol : option string;
  alert_price : option float
}.

(** A scheduled repeating job: [interval] and [first], in seconds. *)
Record job := { interval : Z; first : Z }.

(** What a handler sends back to the chat. *)
Inductive reply :=
| ShowAlertsMenu
| ShowSettingsMenu
| InvalidSymbols
| EnterAlertPrice (sym : string)
| SymbolsUpdated (names : list string)
| FrequencySet (minutes : Z)
| EnterFrequency
| BackToMainMenu.

(** [cancel(update, context)]. *)
Definition cancel : state * list reply := (MENU, [BackToMainMenu]).

(** [s in FOREX_SYMBOLS]. *)
Definition known_symbol (s : string) : bool :=
  bool_decide (is_Some (FOREX_SYMBOLS !! s)).

(** [valid_symbols] of [handle_symbol_selection]. *)
Definition valid_symbols (text : string) : list string :=
  let symbols := map strip (split "," text) in
  List.filter known_symbol symbols.

Definition handle_symbol_selection (text : string) (chat_id : Z)
    (ud : user_data) (us : UserSettings)
  : state * user_data * UserSettings * list reply :=
  if String.eqb text BACK then
    if default false (alert_setup ud) then (ALERTS, ud, us, [ShowAlertsMenu])
    else (SETTINGS, ud, us, [ShowSettingsMenu])
  else
    match valid_symbols text with
    | [] => (SYMBOL_SELECTION, ud, us, [InvalidSymbols])
    | chosen :: others =>
        if default false (alert_setup ud) then
          (SET_ALERT_PRICE,
           {| alert_setup := alert_setup ud; alert_symbol := Some chosen;
              alert_price := alert_price ud |},
           us, [EnterAlertPrice chosen])
        else
          let us' := snd (update_setting us chat_id (Symbols (chosen :: others))) in
          (fst cancel, ud, us', SymbolsUpdated (chosen :: others) :: snd cancel)
    end.

Definition set_update_freq (text : string) (chat_id : Z)
    (us : UserSettings) (job_queue : list job)
  : state * UserSettings * list job * list reply :=
  if String.eqb text BACK then (SETTINGS, us, job_queue, [ShowSettingsMenu])
  else
    match py_int text with
    | Some freq =>
        if (15 <=? freq) && (freq <=? 1440) then
          let us' := snd (update_setting us chat_id (UpdateFreq freq)) in
          (fst cancel, us',
           (job_queue ++ [{| interval := freq * 60; first := 10 |}])%list,
           FrequencySet freq :: snd cancel)
        else (SET_UPDATE_FREQ, us, job_queue, [EnterFrequency])
    | None => (SET_UPDATE_FREQ, us, job_queue, [EnterFrequency])
    end.

(** ** Sample inputs *)

Definition cache_at_0 : PriceDataCache :=
  update 0 empty_cache "EURUSD=X"
    {| symbol := "EUR/USD"; timestamp := 0;
       fields := {[ "current_price" := 1.1%float ]} |}.

Definition silent_market (now : Z) : market :=
  {| history := λ _, None;
     now_at_check := now; now_at_stamp := now; now_at_store := now |}.



Definition sample_quote : quote :=
  {| q_close := 1.1; q_open := 1.09;
     q_weekly_high := 1.2; q_weekly_low := 1.0;
     q_daily_high := 1.15; q_daily_low := 1.05;
     q_h4_high := 1.12; q_h4_low := 1.08;
     q_h1_high := 1.11; q_h1_low := 1.09 |}.

(** A frame on which the RSI computation raises. *)
Definition frame_rsi_raises : frame :=
  {| df_empty := false; df_quote := Some sample_quote;
     ta_atr := Some 0.01%float; ta_rsi := None;
     ta_macd := Some 0.002%float; ta_macd_signal := Some 0.001%float;
     ta_macd_diff := Some 0.001%float |}.


Definition alert_above : alert :=
  {| a_symbol := "EUR/USD"; a_type := "above"; a_price := 1.2;
     a_created := 0; a_active := Some true |}.

(** A record without the [active] key. *)
Definition alert_below_no_flag : alert :=
  {| a_symbol := "EUR/USD"; a_type := "below"; a_price := 1.3;
     a_created := 0; a_active := None |}.

Definition alert_triggered : alert :=
  {| a_symbol := "EUR/USD"; a_type := "above"; a_price := 1.1;
     a_created := 0; a_active := Some false |}.

Definition two_chats : AlertManager :=
  {| alerts := [(1, [alert_above; alert_below_no_flag]); (2, [alert_triggered])];
     alerts_file := [(1, [alert_above; alert_below_no_flag]); (2, [alert_triggered])];
     alerts_writes := 0 |}.

Definition no_chats : AlertManager :=
  {| alerts := []; alerts_file := []; alerts_writes := 0 |}.

(** A transport that delivers every message. *)
Definition delivers : message → bool := λ _, true.

(** What a pass makes of one chat's entry, and the messages it sends for
    it, when every message is delivered. *)
Definition fired_entry (current_price : float) (sym : string)
    (e : Z * list alert) : Z * list alert :=
  (e.1, map (fired current_price sym) e.2).

Definition messages_for (current_price : float) (sym : string)
    (e : Z * list alert) : list message :=
  map (alert_message e.1 current_price sym)
      (List.filter (triggers current_price sym) e.2).

(** A snapshot with RSI 20, the price under the safe buy zone, and the MACD
    line above its signal line. *)
Definition oversold_snapshot : snapshot :=
  {| symbol := "EUR/USD"; timestamp := 0;
     fields := list_to_map
       [("current_price", 1.0%float); ("open", 1.01%float);
        ("h1_low", 1.1%float); ("h4_low", 1.2%float);
        ("h1_high", 1.3%float); ("h4_high", 1.4%float);
        ("ATR", 0.01%float); ("RSI", 20%float);
        ("MACD", 0.5%float); ("MACD_Signal", 0.1%float);
        ("MACD_Hist", 0.4%float)] |}.

Definition no_user_settings : UserSettings :=
  {| user_settings_dict := ∅; user_settings_file := ∅ |}.

(** The signals computed for it for a chat without stored settings. *)
Definition oversold_signals : gmap string value :=
  default ∅ (calculate_trading_signals no_user_settings
               (Some oversold_snapshot) (Some 7)).


Definition fresh_user_data : user_data :=
  {| alert_setup := None; alert_symbol := None; alert_price := None |}.

(** ** Further dialog handlers *)

Definition upper_ascii (c : ascii) : ascii :=
  let n := N_of_ascii c in
  if ((97 <=? n) && (n <=? 122))%N then ascii_of_N (n - 32) else c.

(** [s.upper()] on ASCII letters. *)
Fixpoint upper (s : string) : string :=
  match s with
  | EmptyString => EmptyString
  | String c rest => String (upper_ascii c) (upper rest)
  end.

(** [s.split()]: the maximal runs of characters that are not whitespace. *)
Fixpoint words (s : string) : list string :=
  match s with
  | EmptyString => []
  | String c rest =>
      if is_space c then words rest
      else
        match rest with
        | EmptyString => [String c EmptyString]
        | String c' _ =>
            if is_space c' then String c EmptyString :: words rest
            else match words rest with
                 | w :: ws => String c w :: ws
                 | [] => [String c EmptyString]
                 end
        end
  end.

(** The labels of the alert menu, byte for byte as the source file has
    them. *)
Definition NEW_ALERT : string := "â• New Alert".
Definition DELETE_PREFIX : string := "âŒ Delete ".

(** What the handlers below send back: a reply of the handlers above, or
    one of their own prompts and acknowledgements. *)
Inductive answer :=
| Known (r : reply)
| ShowSymbolSelection
| AskTimezone
| AskFrequency
| AskIndicators
| AskRisk
| IndicatorsSet (names : list string)
| UseIndicators
| RiskSet (level : string)
| AlertDeleted
| InvalidSelection.

(** [show_alerts_menu] reads [a['active']] of every alert of the chat: it
    raises [KeyError] when one of them lacks the key. *)
Definition alerts_menu_raises (m : AlertManager) (chat_id : Z) : bool :=
  existsb (λ a, match a_active a with None => true | Some _ => false end)
          (get_user_alerts m chat_id).

Definition with_alert_setup (ud : user_data) : user_data :=
  {| alert_setup := Some true; alert_symbol := alert_symbol ud;
     alert_price := alert_price ud |}.

(** [handle_alerts(update, context)].  In the Delete branch every exception
    (an index that is no integer, a menu that cannot be rendered) is
    answered with the invalid selection text. *)
Definition handle_alerts (text : string) (chat_id : Z) (ud : user_data)
    (m : AlertManager) : state * user_data * AlertManager * list answer :=
  if String.eqb text BACK then (fst cancel, ud, m, map Known (snd cancel))
  else if String.eqb text NEW_ALERT then
    (SYMBOL_SELECTION, with_alert_setup ud, m, [ShowSymbolSelection])
  else if String.prefix DELETE_PREFIX text then
    match last (words text) ≫= py_int with
    | Some n =>
        let '(removed, m') := remove_alert m chat_id (n - 1) in
        (ALERTS, ud, m',
         (if removed then [AlertDeleted] else []) ++
         (if alerts_menu_raises m' chat_id then [InvalidSelection]
          else [Known ShowAlertsMenu]))%list
    | None => (ALERTS, ud, m, [InvalidSelection])
    end
  else (ALERTS, ud, m, []).

(** [handle_settings(update, context)].  The effective settings always
    hold the notification key, through the defaults. *)
Definition handle_settings (text : string) (chat_id : Z) (us : UserSettings)
  : state * UserSettings * list answer :=
  if String.eqb text BACK then (fst cancel, us, map Known (snd cancel))
  else if String.eqb text "1. Timezone" then (SET_TIMEZONE, us, [AskTimezone])
  else if String.eqb text "2. Frequency" then (SET_UPDATE_FREQ, us, [AskFrequency])
  else if String.eqb text "3. Indicators" then (SET_INDICATORS, us, [AskIndicators])
  else if String.eqb text "4. Notifications" then
    let current := default true (notification (get_user_settings us chat_id)) in
    let us' := snd (update_setting us chat_id (Notification (negb current))) in
    (SETTINGS, us', [Known ShowSettingsMenu])
  else if String.eqb text "5. Risk" then (SET_RISK, us, [AskRisk])
  else if String.eqb text "6. Symbols" then (SYMBOL_SELECTION, us, [ShowSymbolSelection])
  else (SETTINGS, us, []).

(** [valid] of [set_indicators]. *)
Definition VALID_INDICATORS : list string := ["RSI"; "ATR"; "MACD"].

(** [indicators] of [set_indicators]. *)
Definition indicator_tokens (text : string) : list string :=
  map (λ i, upper (strip i)) (split "," text).

Definition set_indicators (text : string) (chat_id : Z) (us : UserSettings)
  : state * UserSettings * list answer :=
  if String.eqb text BACK then (SETTINGS, us, [Known ShowSettingsMenu])
  else
    let indicators := indicator_tokens text in
    if forallb (λ i, bool_decide (i ∈ VALID_INDICATORS)) indicators then
      let us' := snd (update_setting us chat_id (Indicators indicators)) in
      (fst cancel, us', IndicatorsSet indicators :: map Known (snd cancel))
    else (SET_INDICATORS, us, [UseIndicators]).

Definition set_risk (text : string) (chat_id : Z) (us : UserSettings)
  : state * UserSettings * list answer :=
  if String.eqb text BACK then (SETTINGS, us, [Known ShowSettingsMenu])
  else if bool_decide (text ∈ ["Low"; "Medium"; "High"]) then
    let us' := snd (update_setting us chat_id (RiskAppetite (lower text))) in
    (fst cancel, us', RiskSet text :: map Known (snd cancel))
  else (SET_RISK, us, []).

(** The text of the Delete button that [show_alerts_menu] renders for the
    alert at index [i]: the prefix followed by [i + 1] in decimal. *)
Definition delete_button (i : nat) : string :=
  DELETE_PREFIX ++ DecimalString.NilEmpty.string_of_uint (Nat.to_uint (S i)).

(** A market whose clock reads [now] and whose provider answers [df]. *)
Definition market_at (now : Z) (df : option frame) : market :=
  {| history := λ _, df;
     now_at_check := now; now_at_stamp := now; now_at_store := now |}.

(** The keys [calculate_trading_signals] reads whatever is enabled, and the
    keys it writes for each indicator. *)
Definition level_keys : list string :=
  ["current_price"; "h1_low"; "h4_low"; "h1_high"; "h4_high"].

Definition atr_signal_keys : list string :=
  ["ATR"; "safe_buy_zone"; "aggressive_buy_zone"; "sl_conservative";
   "sl_moderate"; "tp_1"].

Definition rsi_signal_keys : list string := ["RSI"; "rsi_signal"].

Definition macd_signal_keys : list string :=
  ["MACD"; "MACD_Signal"; "MACD_Hist"; "macd_signal"].

(** A snapshot as a fetch stores it when the indicator computation raised. *)
Definition snapshot_without_indicators : snapshot :=
  {| symbol := "EUR/USD"; timestamp := 101;
     fields := price_fields sample_quote ∅ |}.

(** The six recommendation texts that carry a risk note. *)
Definition RECOMMENDATIONS : list string :=
  [STRONG_BUY; SELL; BUY; BULLISH; BEARISH; NEUTRAL_WAIT].

(** The signals computed for the oversold snapshot without a chat id. *)
Definition anonymous_signals : gmap string value :=
  default ∅ (signals_of anonymous_settings oversold_snapshot).

(** A snapshot with RSI 80 and the price above both highs. *)
Definition overbought_snapshot : snapshot :=
  {| symbol := "EUR/USD"; timestamp := 0;
     fields := list_to_map
       [("current_price", 1.5%float); ("open", 1.45%float);
        ("h1_low", 1.1%float); ("h4_low", 1.2%float);
        ("h1_high", 1.3%float); ("h4_high", 1.4%float);
        ("ATR", 0.01%float); ("RSI", 80%float);
        ("MACD", 0.5%float); ("MACD_Signal", 0.1%float);
        ("MACD_Hist", 0.4%float)] |}.

Definition overbought_signals : gmap string value :=
  default ∅ (signals_of default_settings overbought_snapshot).

(** Settings in which MACD is the only indicator. *)
Definition macd_only : settings :=
  {| timezone := None; update_freq := None; indicators := Some ["MACD"];
     notification := None; risk_appetite := Some "low"; symbols := None |}.

Definition macd_only_signals : gmap string value :=
  default ∅ (signals_of macd_only oversold_snapshot).

(** ** Vocabulary for the match-and-fire pass under any transport *)

Definition is_inactive (a : alert) : bool :=
  match a_active a with
  | Some false => true
  | _ => false
  end.

(** The number of alerts of a store whose flag is false. *)
Definition inactive_count (d : list (Z * list alert)) : nat :=
  length (List.filter is_inactive (flat_map snd d)).

(** An alert after a pass: as it was, or deactivated because it triggered
    and its message was delivered. *)
Definition kept_or_fired (send_message : message → bool) (chat_id : Z)
    (current_price : float) (sym : string) (a a' : alert) : Prop :=
  a' = a ∨
  (a' = deactivate a ∧ triggers current_price sym a = true ∧
   send_message (alert_message chat_id current_price sym a) = true).

Definition entry_kept_or_fired (send_message : message → bool)
    (current_price : float) (sym : string) (e e' : Z * list alert) : Prop :=
  e'.1 = e.1 ∧
  Forall2 (kept_or_fired send_message e.1 current_price sym) e.2 e'.2.

(** No alert of the store triggers at this price. *)
Definition quiet (current_price : float) (sym : string)
    (d : list (Z * list alert)) : Prop :=
  Forall (λ e, Forall (λ a, triggers current_price sym a = false) e.2) d.

(** A transport that raises on the messages to one chat. *)
Definition blocked_by (chat_id : Z) : message → bool :=
  λ n, negb (Z.eqb (note_chat n) chat_id).

(** The text is ASCII: on such a text [strip], [upper] and [lower] are
    Python's. *)
Fixpoint ascii_only (s : string) : bool :=
  match s with
  | EmptyString => true
  | String c rest => (N_of_ascii c <? 128)%N && ascii_only rest
  end.

(** Every character is a decimal digit. *)
Fixpoint all_digits (s : string) : bool :=
  match s with
  | EmptyString => true
  | String c rest =>
      match digit_value c with
      | Some _ => all_digits rest
      | None => false
      end
  end.

(** * Properties *)

(** ** Order of binary64 numbers *)

Lemma SFltb_finite_pos (m1 m2 : positive) (e1 e2 : Z) :
  SFltb (S754_finite false m1 e1) (S754_finite false m2 e2) = true ↔
  e1 < e2 ∨ (e1 = e2 ∧ (m1 < m2)%positive).
Proof.
  unfold SFltb, SFcompare.
  change (PosDef.Pos.compare_cont Eq m1 m2) with (Pos.compare m1 m2).
  destruct (Z.compare_spec e1 e2); [destruct (Pos.compare_spec m1 m2)| |];
    split; intros; try discriminate; try reflexivity; lia.
Qed.

(** A strict comparison excludes the converse large one, NaN included. *)
Lemma SFltb_not_SFleb (x y : spec_float) : SFltb x y = true → SFleb y x = false.
Proof.
  unfold SFltb, SFleb, SFcompare.
  destruct x as [sx|sx| |sx mx ex], y as [sy|sy| |sy my ey];
    try destruct sx; try destruct sy; try discriminate; try reflexivity.
  all: change (PosDef.Pos.compare_cont Eq mx my) with (Pos.compare mx my);
    change (PosDef.Pos.compare_cont Eq my mx) with (Pos.compare my mx);
    rewrite (Z.compare_antisym ex ey), (Pos.compare_antisym mx my);
    destruct (ex ?= ey)%Z, (mx ?= my)%positive; try discriminate; reflexivity.
Qed.

(** Nothing lies strictly below a positive number and strictly above one of
    a greater exponent. *)
Lemma SFltb_between (x : spec_float) (m1 m2 : positive) (e1 e2 : Z) :
  e1 < e2 →
  SFltb x (S754_finite false m1 e1) = true →
  SFltb (S754_finite false m2 e2) x = false.
Proof.
  intros He H.
  destruct x as [sx|sx| |sx mx ex]; try destruct sx;
    try discriminate; try reflexivity.
  apply SFltb_finite_pos in H.
  destruct (SFltb (S754_finite false m2 e2) (S754_finite false mx ex)) eqn:E;
    [|reflexivity].
  apply SFltb_finite_pos in E. lia.
Qed.

Lemma float_lt_not_ge (x c : float) :
  (x <? c)%float = true → (c <=? x)%float = false.
Proof. rewrite ltb_spec, leb_spec. apply SFltb_not_SFleb. Qed.

Lemma float_lt_30_not_gt_70 (x : float) :
  (x <? 30)%float = true → (70 <? x)%float = false.
Proof.
  rewrite !ltb_spec.
  replace (Prim2SF 30) with (S754_finite false 8444249301319680 (-48))
    by (vm_compute; reflexivity).
  replace (Prim2SF 70) with (S754_finite false 4925812092436480 (-46))
    by (vm_compute; reflexivity).
  apply SFltb_between. lia.
Qed.

(** ** RSI classification *)

(** C9.  The RSI classification is a step function of the RSI value alone:
    a value strictly below 30 is OVERSOLD, a value from 30 to 70, both
    included, is NEUTRAL, a value strictly above 70 is OVERBOUGHT; the
    boundary values 30 and 70 are NEUTRAL. *)
Theorem rsi_signal_step (rsi : float) :
  ((rsi <? 30)%float = true → rsi_signal rsi = "OVERSOLD") ∧
  ((30 <=? rsi)%float = true → (rsi <=? 70)%float = true →
   rsi_signal rsi = "NEUTRAL") ∧
  ((70 <? rsi)%float = true → rsi_signal rsi = "OVERBOUGHT") ∧
  rsi_signal 30 = "NEUTRAL" ∧ rsi_signal 70 = "NEUTRAL".
Proof.
  unfold rsi_signal. repeat split.
  - intros H. rewrite (float_lt_not_ge _ _ H), (float_lt_30_not_gt_70 _ H).
    reflexivity.
  - intros H1 H2. rewrite H1, H2. reflexivity.
  - intros H. rewrite (float_lt_not_ge _ _ H), H, andb_false_r. reflexivity.
Qed.

Lemma rsi_signal_step_witness :
  rsi_signal 20 = "OVERSOLD" ∧ rsi_signal 50 = "NEUTRAL" ∧
  rsi_signal 70.5 = "OVERBOUGHT".
Proof.
  split; [|split].
  - apply (rsi_signal_step 20). reflexivity.
  - apply (rsi_signal_step 50); reflexivity.
  - apply (rsi_signal_step 70.5). reflexivity.
Defined.

(** ** Snapshot cache *)

Lemma is_valid_entry (now stamped : Z) (cache : PriceDataCache) (key : string)
    (d : snapshot) :
  data cache !! key = Some d → last_updated cache !! key = Some stamped →
  is_valid now cache key = (now - stamped <? timedelta_minutes CACHE_EXPIRY_MINUTES).
Proof. intros Hd Ht. unfold is_valid. rewrite Hd, Ht. reflexivity. Qed.

Lemma is_valid_no_entry (now : Z) (cache : PriceDataCache) (key : string) :
  data cache !! key = None ∨ last_updated cache !! key = None →
  is_valid now cache key = false.
Proof.
  unfold is_valid. intros [H|H]; rewrite H; [reflexivity|].
  destruct (data cache !! key); reflexivity.
Qed.

(** A call that finds no valid entry returns what it would return on an
    empty cache: nothing of the stored entries reaches the caller. *)
Lemma get_forex_price_miss (w : market) (cache : PriceDataCache) (sym : string) :
  is_valid (now_at_check w) cache (default sym (FOREX_SYMBOLS !! sym)) = false →
  fst (get_forex_price w cache sym) = fst (get_forex_price w empty_cache sym).
Proof.
  intros H. unfold get_forex_price. rewrite H.
  rewrite (is_valid_no_entry _ empty_cache) by (left; apply lookup_empty).
  destruct (history w _) as [df|]; [|reflexivity].
  destruct (df_empty df); [reflexivity|].
  destruct (df_quote df); reflexivity.
Qed.

(** C5.  For a symbol with a cache entry stamped at [stamped], [is_valid]
    read at [now] is true exactly when [now - stamped] is less than five
    minutes: true at a difference of zero, false from five minutes on.  A
    symbol without an entry is a miss.  [get_forex_price] returns the
    stored snapshot while the entry is valid, and when it is stale the
    value returned is the one a call on an empty cache returns. *)
Theorem is_valid_ttl (w : market) (cache : PriceDataCache) (sym : string)
    (d : snapshot) (stamped : Z) :
  let key := default sym (FOREX_SYMBOLS !! sym) in
  let now := now_at_check w in
  data cache !! key = Some d →
  last_updated cache !! key = Some stamped →
  (is_valid now cache key = true ↔ now - stamped < 5 * 60 * 1000000) ∧
  is_valid stamped cache key = true ∧
  (5 * 60 * 1000000 ≤ now - stamped → is_valid now cache key = false) ∧
  (∀ other : PriceDataCache,
     data other !! key = None ∨ last_updated other !! key = None →
     is_valid now other key = false) ∧
  (is_valid now cache key = true →
     get_forex_price w cache sym = (Some d, cache)) ∧
  (is_valid now cache key = false →
     fst (get_forex_price w cache sym) = fst (get_forex_price w empty_cache sym)).
Proof.
  intros key now Hd Ht.
  assert (Hv : ∀ t, is_valid t cache key = (t - stamped <? 5 * 60 * 1000000))
    by (intros t; apply (is_valid_entry _ _ _ _ d); assumption).
  repeat split.
  - rewrite Hv. apply Z.ltb_lt.
  - rewrite Hv. apply Z.ltb_lt.
  - rewrite Hv. apply Z.ltb_lt. lia.
  - rewrite Hv. intros H. apply Z.ltb_ge. exact H.
  - intros other H. apply is_valid_no_entry. exact H.
  - intros H. unfold get_forex_price. fold key. fold now. rewrite H, Hd.
    reflexivity.
  - apply get_forex_price_miss.
Qed.

Lemma is_valid_ttl_witness :
  is_valid 299999999 cache_at_0 "EURUSD=X" = true ∧
  is_valid 300000000 cache_at_0 "EURUSD=X" = false ∧
  fst (get_forex_price (silent_market 300000000) cache_at_0 "EUR/USD") = None.
Proof.
  pose proof (is_valid_ttl (silent_market 299999999) cache_at_0 "EUR/USD"
                _ 0 eq_refl eq_refl) as (Hiff & _).
  pose proof (is_valid_ttl (silent_market 300000000) cache_at_0 "EUR/USD"
                _ 0 eq_refl eq_refl) as (_ & _ & Hstale & _ & _ & Hmiss).
  split; [|split].
  - apply Hiff. reflexivity.
  - apply Hstale. discriminate.
  - rewrite Hmiss; [reflexivity|]. apply Hstale. discriminate.
Defined.







(** ** Alert store *)

Lemma dict_get_set_eq {V : Type} (k : Z) (v : V) (d : list (Z * V)) :
  dict_get k (dict_set k v d) = Some v.
Proof.
  induction d as [|[k' v'] d IH]; cbn.
  - by rewrite Z.eqb_refl.
  - destruct (Z.eqb k k') eqn:E; cbn; rewrite E; [reflexivity|exact IH].
Qed.

Lemma dict_get_set_ne {V : Type} (k k' : Z) (v : V) (d : list (Z * V)) :
  k' ≠ k → dict_get k' (dict_set k v d) = dict_get k' d.
Proof.
  intros Hne. induction d as [|[k0 v0] d IH]; cbn.
  - by apply Z.eqb_neq in Hne as ->.
  - destruct (Z.eqb k k0) eqn:E; cbn; [|by rewrite IH].
    apply Z.eqb_eq in E as ->. by apply Z.eqb_neq in Hne as ->.
Qed.

(** C8.  With [l] the chat's alert list: for an index outside
    [0, length l) [remove_alert] reports failure and changes nothing (the
    store, the file and the write count are the ones before); for an index
    inside it reports success, the chat's list loses exactly the alert at
    that position, every other chat keeps its list, and the file holds the
    new store. *)
Theorem remove_alert_by_index (m : AlertManager) (chat_id alert_index : Z) :
  let l := get_user_alerts m chat_id in
  (¬ (0 ≤ alert_index < Z.of_nat (length l)) →
   remove_alert m chat_id alert_index = (false, m)) ∧
  (0 ≤ alert_index < Z.of_nat (length l) →
   ∃ m', remove_alert m chat_id alert_index = (true, m') ∧
     get_user_alerts m' chat_id
       = (take (Z.to_nat alert_index) l ++ drop (S (Z.to_nat alert_index)) l)%list ∧
     S (length (get_user_alerts m' chat_id)) = length l ∧
     (∀ c, c ≠ chat_id → get_user_alerts m' c = get_user_alerts m c) ∧
     alerts_file m' = alerts m' ∧
     alerts_writes m' = S (alerts_writes m)).
Proof.
  intros l. subst l. unfold get_user_alerts, remove_alert.
  destruct (dict_get chat_id (alerts m)) as [l|] eqn:Hl; cbn [from_option id].
  - split.
    + intros Hout.
      destruct (0 <=? alert_index) eqn:E1; [|reflexivity].
      destruct (alert_index <? Z.of_nat (length l)) eqn:E2; [|reflexivity].
      exfalso. apply Hout. split; [by apply Z.leb_le|by apply Z.ltb_lt].
    + intros [H0 Hlt].
      apply Z.leb_le in H0 as E1. apply Z.ltb_lt in Hlt as E2.
      rewrite E1, E2. cbn [andb]. eexists. split; [reflexivity|].
      cbn. rewrite dict_get_set_eq. cbn [from_option id].
      assert (Hn : (Z.to_nat alert_index < length l)%nat) by lia.
      repeat split.
      * apply delete_take_drop.
      * rewrite length_delete; [lia|]. by apply lookup_lt_is_Some_2.
      * intros c Hc. by rewrite dict_get_set_ne.
  - split; [reflexivity|]. cbn. lia.
Qed.

Lemma remove_alert_by_index_witness :
  remove_alert two_chats 1 2 = (false, two_chats) ∧
  remove_alert two_chats 1 (-1) = (false, two_chats) ∧
  ∃ m', remove_alert two_chats 1 0 = (true, m') ∧
        get_user_alerts m' 1 = [alert_below_no_flag] ∧
        get_user_alerts m' 2 = [alert_triggered].
Proof.
  split; [|split].
  - apply (remove_alert_by_index two_chats 1 2). cbn. lia.
  - apply (remove_alert_by_index two_chats 1 (-1)). cbn. lia.
  - destruct (remove_alert_by_index two_chats 1 0) as [_ H].
    destruct H as (m' & Hr & Hl & _ & Hc & _); [cbn; lia|].
    exists m'. split; [exact Hr|]. split; [exact Hl|].
    apply Hc. discriminate.
Defined.

(** ** The match-and-fire pass *)

Lemma triggers_deactivate (p : float) (sym : string) (a : alert) :
  triggers p sym (deactivate a) = false.
Proof. reflexivity. Qed.




Section Delivered.

Variable send_message : message → bool.
Hypothesis delivered : ∀ n, send_message n = true.

Lemma scan_alerts_delivered (c : Z) (p : float) (sym : string) (l : list alert) :
  scan_alerts send_message c p sym l
  = (map (fired p sym) l, messages_for p sym (c, l), true).
Proof.
  unfold messages_for. cbn [fst snd].
  induction l as [|a l IH]; [reflexivity|].
  cbn. unfold fired at 1.
  destruct (triggers p sym a); [rewrite delivered|]; by rewrite IH.
Qed.

(** The store after the outer loop has scanned [todo]. *)
Lemma scan_chats_delivered (p : float) (sym : string)
    (todo : list (Z * list alert)) :
  ∀ (m : AlertManager) (done : list (Z * list alert)),
    scan_chats send_message p sym m done todo
    = {| pass_manager :=
           match todo with
           | [] => m
           | _ :: _ =>
               {| alerts := (done ++ map (fired_entry p sym) todo)%list;
                  alerts_file := (done ++ map (fired_entry p sym) todo)%list;
                  alerts_writes := (length todo + alerts_writes m)%nat |}
           end;
         pass_sent := flat_map (messages_for p sym) todo;
         pass_raised := false |}.
Proof.
  induction todo as [|[c l] rest IH]; intros m done; [reflexivity|].
  cbn [scan_chats]. rewrite scan_alerts_delivered, IH. cbn.
  destruct rest as [|e rest]; cbn.
  - by rewrite app_nil_r.
  - unfold fired_entry at 2 4. cbn.
    rewrite <- !(app_assoc done). cbn.
    f_equal. f_equal. lia.
Qed.

Lemma check_alerts_delivered (p : float) (sym : string) (m : AlertManager) :
  pass_raised (check_alerts send_message p sym m) = false ∧
  alerts (pass_manager (check_alerts send_message p sym m))
    = map (fired_entry p sym) (alerts m) ∧
  pass_sent (check_alerts send_message p sym m)
    = flat_map (messages_for p sym) (alerts m) ∧
  alerts_writes (pass_manager (check_alerts send_message p sym m))
    = (alerts_writes m + length (alerts m))%nat.
Proof.
  unfold check_alerts. rewrite scan_chats_delivered. cbn.
  destruct (alerts m) eqn:E; cbn; rewrite ?E; repeat split; lia.
Qed.

(** The fate of one alert that triggers: its record stays at its position,
    inactive, and its message is among those sent. *)
Lemma check_alerts_delivered_at (p : float) (sym : string) (m : AlertManager)
    (k i : nat) (c : Z) (l : list alert) (a : alert) :
  alerts m !! k = Some (c, l) → l !! i = Some a → triggers p sym a = true →
  ∃ l', alerts (pass_manager (check_alerts send_message p sym m)) !! k = Some (c, l') ∧
        l' !! i = Some (deactivate a) ∧
        length l' = length l ∧
        alert_message c p sym a ∈ pass_sent (check_alerts send_message p sym m).
Proof.
  intros Hk Hi Ht.
  destruct (check_alerts_delivered p sym m) as (_ & Ha & Hs & _).
  exists (map (fired p sym) l). rewrite Ha, Hs. repeat split.
  - rewrite list_lookup_fmap, Hk. reflexivity.
  - rewrite list_lookup_fmap, Hi. cbn. unfold fired. by rewrite Ht.
  - apply length_map.
  - apply list_elem_of_In, in_flat_map. exists (c, l). split.
    + apply list_elem_of_In. by eapply list_elem_of_lookup_2.
    + unfold messages_for. cbn. apply in_map, filter_In. split; [|done].
      apply list_elem_of_In. by eapply list_elem_of_lookup_2.
Qed.

End Delivered.





Lemma scan_alerts_length (send_message : message → bool) (c : Z) (p : float)
    (sym : string) (l : list alert) :
  length (scan_alerts send_message c p sym l).1.1 = length l.
Proof.
  induction l as [|a l IH]; [reflexivity|]. cbn.
  destruct (triggers p sym a); [destruct (send_message _)|];
    try reflexivity;
    destruct (scan_alerts send_message c p sym l) as [[l' s] ok]; cbn in *;
    by rewrite IH.
Qed.

(** Whatever the transport does, a pass writes the file at most once per
    chat entry. *)
Lemma scan_chats_writes_le (send_message : message → bool) (p : float)
    (sym : string) (todo : list (Z * list alert)) :
  ∀ (m : AlertManager) (done : list (Z * list alert)),
    (alerts_writes (pass_manager (scan_chats send_message p sym m done todo))
     ≤ alerts_writes m + length todo)%nat.
Proof.
  induction todo as [|[c l] rest IH]; intros m done; cbn; [lia|].
  destruct (scan_alerts send_message c p sym l) as [[l' s] ok].
  destruct ok; cbn; [|lia].
  etransitivity; [apply IH|]. cbn. lia.
Qed.

(** C7, amended.  A pass writes the alert file once per chat entry whose
    list it has scanned, not once per alert that fires: never more often
    than the store has chat entries, and, when every message is delivered,
    exactly that often, however many alerts fire. *)
Theorem check_alerts_writes_per_chat (send_message : message → bool)
    (current_price : float) (sym : string) (m : AlertManager) :
  let after := pass_manager (check_alerts send_message current_price sym m) in
  (alerts_writes after ≤ alerts_writes m + length (alerts m))%nat ∧
  ((∀ n, send_message n = true) →
   alerts_writes after = (alerts_writes m + length (alerts m))%nat).
Proof.
  cbv zeta. split.
  - apply scan_chats_writes_le.
  - intros Hsend.
    by destruct (check_alerts_delivered send_message Hsend current_price sym m)
      as (_ & _ & _ & Hw).
Qed.

Lemma check_alerts_writes_per_chat_witness :
  alerts_writes (pass_manager (check_alerts delivers 1.205 "EUR/USD" two_chats))
  = (0 + 2)%nat.
Proof.
  apply (check_alerts_writes_per_chat delivers 1.205 "EUR/USD" two_chats).
  intros n. reflexivity.
Defined.

(** C7 as stated fails: a pass over a store with two chat entries writes
    the file twice, and a pass over an empty store does not write it. *)
Lemma check_alerts_writes_not_once :
  alerts_writes two_chats = 0%nat ∧
  alerts_writes (pass_manager (check_alerts delivers 1.205 "EUR/USD" two_chats))
    = 2%nat ∧
  alerts_writes no_chats = 0%nat ∧
  alerts_writes (pass_manager (check_alerts delivers 1.205 "EUR/USD" no_chats))
    = 0%nat.
Proof. repeat split; vm_compute; reflexivity. Qed.

(** C10.  A record without the [active] key is treated as an active one:
    whether it triggers is decided by its symbol and its threshold alone,
    as for a record whose flag is true, while a record whose flag is false
    never triggers and is stored unchanged.  In a pass whose messages are
    delivered, a record without the key that is on the symbol and whose
    threshold is crossed has its message sent and is stored with the flag
    false. *)
Theorem missing_active_means_active (send_message : message → bool)
    (current_price : float) (sym : string) (a : alert) :
  (a_active a ≠ Some false →
   triggers current_price sym a
   = String.eqb (a_symbol a) sym && crossed current_price a) ∧
  (a_active a = Some false →
   triggers current_price sym a = false ∧ fired current_price sym a = a) ∧
  ((∀ n, send_message n = true) →
   a_active a = None → a_symbol a = sym → crossed current_price a = true →
   ∀ (m : AlertManager) (k i : nat) (c : Z) (l : list alert),
     alerts m !! k = Some (c, l) → l !! i = Some a →
     let r := check_alerts send_message current_price sym m in
     ∃ l', alerts (pass_manager r) !! k = Some (c, l') ∧
           l' !! i = Some (deactivate a) ∧
           a_active (deactivate a) = Some false ∧
           alert_message c current_price sym a ∈ pass_sent r).
Proof.
  split; [|split].
  - intros Hact. unfold triggers.
    destruct (a_active a) as [[|]|]; [reflexivity|by destruct Hact|reflexivity].
  - intros Hact. unfold fired, triggers. rewrite Hact. done.
  - intros Hsend Hact Hsym Hcross m k i c l Hk Hi r. subst r.
    assert (Ht : triggers current_price sym a = true).
    { unfold triggers. rewrite Hact, Hsym, String.eqb_refl, Hcross. done. }
    destruct (check_alerts_delivered_at send_message Hsend current_price sym
                m k i c l a Hk Hi Ht) as (l' & H1 & H2 & _ & H4).
    exists l'. repeat split; done.
Qed.

Lemma missing_active_means_active_witness :
  triggers 1.205 "EUR/USD" alert_below_no_flag = true ∧
  triggers 1.205 "EUR/USD" alert_triggered = false ∧
  let r := check_alerts delivers 1.205 "EUR/USD"
             {| alerts := [(7, [alert_below_no_flag])];
                alerts_file := []; alerts_writes := 0 |} in
  ∃ l', alerts (pass_manager r) !! 0%nat = Some (7, l') ∧
        l' !! 0%nat = Some (deactivate alert_below_no_flag) ∧
        a_active (deactivate alert_below_no_flag) = Some false ∧
        alert_message 7 1.205 "EUR/USD" alert_below_no_flag ∈ pass_sent r.
Proof.
  pose proof (missing_active_means_active delivers 1.205 "EUR/USD"
                alert_below_no_flag) as (H1 & _ & H3).
  pose proof (missing_active_means_active delivers 1.205 "EUR/USD"
                alert_triggered) as (_ & H2 & _).
  split; [|split].
  - rewrite H1; [vm_compute; reflexivity|discriminate].
  - apply H2. reflexivity.
  - assert (Hc : crossed 1.205 alert_below_no_flag = true)
      by (vm_compute; reflexivity).
    apply (H3 (λ _, eq_refl) eq_refl eq_refl Hc _ 0%nat 0%nat 7
              [alert_below_no_flag]); reflexivity.
Defined.

(** ** Recommendation *)

(** Steps through a bind of the error monad in [H]; a branch in which the
    program has raised contradicts a result. *)
Ltac raised H := cbn [mbind option_bind] in H; try discriminate H.

(** Where the safe buy zone and the RSI state of computed signals come
    from: both indicators were enabled and present in the snapshot. *)
Lemma signals_of_entries (st : settings) (pd : snapshot)
    (signals : gmap string value) (zone : float) (label : string) :
  signals_of st pd = Some signals →
  signals !! "safe_buy_zone" = Some (VNum zone) →
  signals !! "rsi_signal" = Some (VStr label) →
  ∃ h1_low h4_low atr risk rsi,
    fields pd !! "h1_low" = Some h1_low ∧ fields pd !! "h4_low" = Some h4_low ∧
    fields pd !! "ATR" = Some atr ∧ risk_appetite st = Some risk ∧
    fields pd !! "RSI" = Some rsi ∧
    zone = (py_min h1_low h4_low - atr * risk_factor risk)%float ∧
    label = rsi_signal rsi.
Proof.
  intros Hsig Hzone Hlabel. unfold signals_of in Hsig.
  destruct (fields pd !! "current_price") as [p|]; raised Hsig.
  destruct (fields pd !! "h1_low") as [h1l|]; raised Hsig.
  destruct (fields pd !! "h4_low") as [h4l|]; raised Hsig.
  destruct (fields pd !! "h1_high") as [h1h|]; raised Hsig.
  destruct (fields pd !! "h4_high") as [h4h|]; raised Hsig.
  destruct (indicators st) as [enabled|]; raised Hsig.
  destruct (bool_decide ("ATR" ∈ enabled));
    [ destruct (fields pd !! "ATR") as [atr|]; raised Hsig;
      destruct (risk_appetite st) as [risk|]; raised Hsig | raised Hsig ];
  (destruct (bool_decide ("RSI" ∈ enabled));
    [ destruct (fields pd !! "RSI") as [rsi|]; raised Hsig | raised Hsig ]);
  (destruct (bool_decide ("MACD" ∈ enabled));
    [ destruct (fields pd !! "MACD"); raised Hsig;
      destruct (fields pd !! "MACD_Signal"); raised Hsig;
      destruct (fields pd !! "MACD_Hist"); raised Hsig | raised Hsig ]);
  injection Hsig as <-; simplify_map_eq.
  all: eexists _, _, _, _, _; repeat split; reflexivity.
Qed.

(** The labels the three zone rules can produce. *)
Lemma zone_rules_labels (p : float) (signals : gmap string value) (rec : string) :
  zone_rules p signals NEUTRAL_WAIT = Some rec →
  rec = STRONG_BUY ∨ rec = SELL ∨ rec = BUY ∨ rec = NEUTRAL_WAIT.
Proof.
  unfold zone_rules. intros H.
  destruct (le_value p (default (VNum 0) (signals !! "safe_buy_zone")))
    as [b1|]; raised H.
  destruct (b1 && _); [injection H as <-; auto|].
  destruct (signals !! "resistance") as [r|]; raised H.
  destruct (ge_value p r) as [b2|]; raised H.
  destruct (b2 && _); [injection H as <-; auto|].
  destruct (le_value p _) as [b3|]; raised H.
  destruct b3; injection H as <-; auto.
Qed.

(** A rule of the chain that matched is never replaced by the MACD label. *)
Lemma zone_rules_precede_macd (pd : snapshot) (signals : gmap string value)
    (st : settings) (p : float) (rec : string) :
  fields pd !! "current_price" = Some p →
  "RSI" ∈ default ["RSI"] (indicators st) →
  "ATR" ∈ default ["ATR"] (indicators st) →
  zone_rules p signals NEUTRAL_WAIT = Some rec →
  rec ≠ NEUTRAL_WAIT →
  generate_recommendation pd signals st = (rec ++ risk_note st)%string.
Proof.
  intros Hp Hrsi Hatr Hz Hne. unfold generate_recommendation.
  rewrite Hp. cbn [mbind option_bind].
  rewrite (bool_decide_eq_true_2 _ Hrsi), (bool_decide_eq_true_2 _ Hatr).
  cbn [andb].
  rewrite Hz. cbn [mbind option_bind].
  destruct (zone_rules_labels _ _ _ Hz) as [-> | [-> | [-> | ->]]]; try done.
  all: replace (contains "NEUTRAL" _) with false by (vm_compute; reflexivity).
  all: by rewrite andb_false_r.
Qed.

(** C1.  Take the signals [calculate_trading_signals] computes for a
    snapshot, and settings in which RSI and ATR are both enabled.  If the
    current price is at or below the safe buy zone of those signals and
    their RSI state is OVERSOLD, the recommendation is the STRONG BUY text
    followed by the risk note, whatever the MACD entries of the signals and
    whether or not MACD is enabled.  The safe buy zone is the support less
    ATR times the risk factor, and the RSI state is the classification of
    the snapshot's RSI. *)
Theorem strong_buy_precedes_macd (us : UserSettings) (price_data : snapshot)
    (chat_id : option Z) (signals : gmap string value) (st : settings)
    (current_price safe_buy : float) :
  calculate_trading_signals us (Some price_data) chat_id = Some signals →
  "RSI" ∈ default ["RSI"] (indicators st) →
  "ATR" ∈ default ["ATR"] (indicators st) →
  fields price_data !! "current_price" = Some current_price →
  signals !! "safe_buy_zone" = Some (VNum safe_buy) →
  (current_price <=? safe_buy)%float = true →
  signals !! "rsi_signal" = Some (VStr "OVERSOLD") →
  generate_recommendation price_data signals st
  = (STRONG_BUY ++ risk_note st)%string ∧
  ∃ h1_low h4_low atr risk rsi,
    fields price_data !! "h1_low" = Some h1_low ∧
    fields price_data !! "h4_low" = Some h4_low ∧
    fields price_data !! "ATR" = Some atr ∧
    risk_appetite (signal_settings us chat_id) = Some risk ∧
    fields price_data !! "RSI" = Some rsi ∧
    safe_buy = (py_min h1_low h4_low - atr * risk_factor risk)%float ∧
    rsi_signal rsi = "OVERSOLD".
Proof.
  intros Hsig Hrsi Hatr Hp Hzone Hle Hos. split.
  - apply (zone_rules_precede_macd _ _ _ current_price); try done.
    unfold zone_rules. rewrite Hzone, Hos. cbn. by rewrite Hle.
  - destruct (signals_of_entries _ _ _ _ _ Hsig Hzone Hos)
      as (h1 & h4 & atr & risk & rsi & H1 & H2 & H3 & H4 & H5 & H6 & H7).
    by exists h1, h4, atr, risk, rsi.
Qed.

Lemma Some_default {A : Type} (x : option A) (d : A) :
  is_Some x → x = Some (default d x).
Proof. intros [y ->]. reflexivity. Qed.

Lemma is_Some_true {A : Type} (x : option A) :
  match x with Some _ => true | None => false end = true → is_Some x.
Proof. destruct x; [eauto|discriminate]. Qed.

Lemma strong_buy_precedes_macd_witness :
  is_Some (calculate_trading_signals no_user_settings (Some oversold_snapshot)
             (Some 7)) ∧
  oversold_signals !! "RSI" = Some (VNum 20) ∧
  oversold_signals !! "macd_signal" = Some (VStr "BULLISH") ∧
  generate_recommendation oversold_snapshot oversold_signals
    (get_user_settings no_user_settings 7)
  = STRONG_BUY.
Proof.
  assert (Hs : is_Some (calculate_trading_signals no_user_settings
                          (Some oversold_snapshot) (Some 7)))
    by (apply is_Some_true; vm_compute; reflexivity).
  split; [exact Hs|].
  split; [vm_compute; reflexivity|].
  split; [vm_compute; reflexivity|].
  destruct (strong_buy_precedes_macd no_user_settings oversold_snapshot
              (Some 7) oversold_signals (get_user_settings no_user_settings 7)
              1.0 (py_min 1.1 1.2 - 0.01 * risk_factor "medium")%float)
    as [-> _].
  - apply Some_default, Hs.
  - apply list_elem_of_here.
  - apply list_elem_of_further, list_elem_of_here.
  - vm_compute. reflexivity.
  - vm_compute. reflexivity.
  - vm_compute. reflexivity.
  - vm_compute. reflexivity.
  - vm_compute. reflexivity.
Defined.

(** ** Settings store *)

Lemma update_setting_stores (us : UserSettings) (chat_id : Z) (s : setting) :
  let us' := snd (update_setting us chat_id s) in
  user_settings_dict us' !! chat_id
    = Some (assign s (default no_settings (user_settings_dict us !! chat_id))) ∧
  (∀ c, c ≠ chat_id → user_settings_dict us' !! c = user_settings_dict us !! c) ∧
  user_settings_file us' = user_settings_dict us'.
Proof.
  cbn. destruct (user_settings_dict us !! chat_id) as [st|] eqn:E; repeat split.
  - by rewrite lookup_alter_eq, E.
  - intros c Hc. by rewrite lookup_alter_ne.
  - by rewrite lookup_alter_eq, lookup_insert_eq.
  - intros c Hc. by rewrite lookup_alter_ne, lookup_insert_ne.
Qed.

(** ** Dialog: symbol selection *)






(** ** Dialog: update frequency *)

(** C6.  In the update frequency state, an input other than the Back button
    that is not an integer literal, or whose value lies outside 15..1440,
    is answered with the prompt again: the state stays, and the settings
    store and the job queue are as they were.  An input whose value lies
    in 15..1440 stores that value as the chat's update frequency, in memory
    and in the file, leaves every other chat's settings alone, schedules a
    job at that interval and returns to the menu.  The input is an ASCII
    text, where [py_int] is Python's [int]. *)
Theorem set_update_freq_validates (text : string) (chat_id : Z)
    (us : UserSettings) (job_queue : list job) :
  text ≠ BACK → ascii_only text = true →
  ((py_int text = None ∨ (∃ v, py_int text = Some v ∧ (v < 15 ∨ 1440 < v))) →
   set_update_freq text chat_id us job_queue
   = (SET_UPDATE_FREQ, us, job_queue, [EnterFrequency])) ∧
  (∀ v, py_int text = Some v → 15 ≤ v ≤ 1440 →
   ∃ us',
     set_update_freq text chat_id us job_queue
     = (MENU, us',
        (job_queue ++ [{| interval := v * 60; first := 10 |}])%list,
        [FrequencySet v; BackToMainMenu]) ∧
     update_freq (get_user_settings us' chat_id) = Some v ∧
     user_settings_file us' = user_settings_dict us' ∧
     (∀ c, c ≠ chat_id → get_user_settings us' c = get_user_settings us c)).
Proof.
  intros Hback _. unfold set_update_freq.
  apply String.eqb_neq in Hback as ->. split.
  - intros [->|(v & -> & Hv)]; [reflexivity|].
    destruct (15 <=? v) eqn:E1; [|reflexivity].
    destruct (v <=? 1440) eqn:E2; [|reflexivity].
    apply Z.leb_le in E1, E2. lia.
  - intros v -> [H1 H2].
    apply Z.leb_le in H1 as ->. apply Z.leb_le in H2 as ->. cbn [andb].
    eexists. split; [reflexivity|].
    destruct (update_setting_stores us chat_id (UpdateFreq v)) as (Hd & Ho & Hf).
    split; [|split; [exact Hf|]].
    + unfold get_user_settings. rewrite Hd. reflexivity.
    + intros c Hc. unfold get_user_settings. by rewrite Ho.
Qed.

Lemma set_update_freq_validates_witness :
  set_update_freq "10" 7 no_user_settings []
    = (SET_UPDATE_FREQ, no_user_settings, [], [EnterFrequency]) ∧
  set_update_freq "sixty" 7 no_user_settings []
    = (SET_UPDATE_FREQ, no_user_settings, [], [EnterFrequency]) ∧
  ∃ us', set_update_freq "60" 7 no_user_settings []
           = (MENU, us', [{| interval := 3600; first := 10 |}],
              [FrequencySet 60; BackToMainMenu]) ∧
         update_freq (get_user_settings us' 7) = Some 60.
Proof.
  split; [|split].
  - apply (set_update_freq_validates "10" 7 no_user_settings []).
    + intros H. vm_compute in H. discriminate H.
    + reflexivity.
    + right. exists 10. split; [reflexivity|lia].
  - apply (set_update_freq_validates "sixty" 7 no_user_settings []).
    + intros H. vm_compute in H. discriminate H.
    + reflexivity.
    + left. reflexivity.
  - destruct (set_update_freq_validates "60" 7 no_user_settings []) as [_ H].
    + intros H. vm_compute in H. discriminate H.
    + reflexivity.
    + destruct (H 60 eq_refl ltac:(lia)) as (us' & Hr & Hf & _).
      exists us'. split; [exact Hr|exact Hf].
Defined.

(** The Back button is answered before the input is parsed: it shows the
    settings menu, and the store and the job queue are as they were. *)
Lemma set_update_freq_back_button (chat_id : Z) (us : UserSettings)
    (job_queue : list job) :
  set_update_freq BACK chat_id us job_queue
  = (SETTINGS, us, job_queue, [ShowSettingsMenu]).
Proof. reflexivity. Qed.

(** * Further properties *)

(** ** Settings store *)

Lemma merge_assign (s : setting) (st : settings) :
  merge default_settings (assign s st) = assign s (merge default_settings st).
Proof. destruct s; reflexivity. Qed.

(** X1.  Reading a chat's settings back after [update_setting]: the key
    written holds the new value, every other key holds what it held before
    (the default when it was never written), no other chat's settings
    change, and the file holds the dictionary. *)
Theorem update_setting_read_back (us : UserSettings) (chat_id : Z) (s : setting) :
  let us' := snd (update_setting us chat_id s) in
  fst (update_setting us chat_id s) = true ∧
  get_user_settings us' chat_id = assign s (get_user_settings us chat_id) ∧
  (∀ c, c ≠ chat_id → get_user_settings us' c = get_user_settings us c) ∧
  (user_settings_dict us !! chat_id = None →
   get_user_settings us' chat_id = assign s default_settings) ∧
  user_settings_file us' = user_settings_dict us'.
Proof.
  destruct (update_setting_stores us chat_id s) as (Hd & Ho & Hf).
  cbv zeta. split; [reflexivity|]. split; [|split; [|split]].
  - unfold get_user_settings. rewrite Hd. apply merge_assign.
  - intros c Hc. unfold get_user_settings. by rewrite Ho.
  - intros Hnone. unfold get_user_settings. rewrite Hd, Hnone. apply merge_assign.
  - exact Hf.
Qed.

Lemma update_setting_read_back_witness :
  risk_appetite (get_user_settings
                   (snd (update_setting no_user_settings 7 (RiskAppetite "high"))) 7)
    = Some "high" ∧
  update_freq (get_user_settings
                 (snd (update_setting no_user_settings 7 (RiskAppetite "high"))) 7)
    = Some 30.
Proof.
  destruct (update_setting_read_back no_user_settings 7 (RiskAppetite "high"))
    as (_ & _ & _ & H & _).
  rewrite H by reflexivity. split; reflexivity.
Defined.

(** ** Snapshot cache, continued *)

Lemma is_valid_update_eq (now t : Z) (cache : PriceDataCache) (key : string)
    (d : snapshot) :
  is_valid now (update t cache key d) key
  = (now - t <? timedelta_minutes CACHE_EXPIRY_MINUTES).
Proof. unfold is_valid, update. cbn. by rewrite !lookup_insert_eq. Qed.

Lemma is_valid_update_ne (now t : Z) (cache : PriceDataCache) (key k : string)
    (d : snapshot) :
  k ≠ key → is_valid now (update t cache key d) k = is_valid now cache k.
Proof. intros Hk. unfold is_valid, update. cbn. by rewrite !lookup_insert_ne. Qed.

(** The snapshot a fetch builds, and where it stores it. *)
Lemma get_forex_price_fetched (w : market) (cache : PriceDataCache)
    (sym : string) (s : snapshot) :
  let key := default sym (FOREX_SYMBOLS !! sym) in
  is_valid (now_at_check w) cache key = false →
  fst (get_forex_price w cache sym) = Some s →
  ∃ df q,
    history w key = Some df ∧ df_quote df = Some q ∧
    s = {| symbol := sym; timestamp := now_at_stamp w;
           fields := price_fields q (get_technical_indicators df) |} ∧
    snd (get_forex_price w cache sym) = update (now_at_store w) cache key s.
Proof.
  intros key Hmiss. unfold get_forex_price. fold key. rewrite Hmiss.
  destruct (history w key) as [df|] eqn:Hh; [|discriminate].
  destruct (df_empty df); [discriminate|].
  destruct (df_quote df) as [q|] eqn:Hq; [|discriminate].
  cbn. intros [= <-]. exists df, q. repeat split; done.
Qed.

(** A call that returns nothing leaves the cache as it was. *)
Lemma get_forex_price_none (w : market) (cache : PriceDataCache) (sym : string) :
  fst (get_forex_price w cache sym) = None →
  snd (get_forex_price w cache sym) = cache.
Proof.
  unfold get_forex_price.
  destruct (is_valid _ _ _); [reflexivity|].
  destruct (history w _) as [df|]; [|reflexivity].
  destruct (df_empty df); [reflexivity|].
  destruct (df_quote df); [discriminate|reflexivity].
Qed.

(** X2.  After a fetch that missed the cache and returned a snapshot, a
    call for the same symbol whose clock reads less than five minutes after
    the store returns that snapshot from the cache, whatever the provider
    would answer, and leaves the cache as it is; a call five minutes after
    the store or later asks the provider again. *)
Theorem get_forex_price_then_hit (w later : market) (cache : PriceDataCache)
    (sym : string) (s : snapshot) :
  let key := default sym (FOREX_SYMBOLS !! sym) in
  let cache' := snd (get_forex_price w cache sym) in
  is_valid (now_at_check w) cache key = false →
  fst (get_forex_price w cache sym) = Some s →
  (now_at_check later - now_at_store w < 5 * 60 * 1000000 →
   get_forex_price later cache' sym = (Some s, cache')) ∧
  (5 * 60 * 1000000 ≤ now_at_check later - now_at_store w →
   fst (get_forex_price later cache' sym)
   = fst (get_forex_price later empty_cache sym)).
Proof.
  intros key cache' Hmiss Hret. subst cache'.
  destruct (get_forex_price_fetched w cache sym s Hmiss Hret)
    as (df & q & _ & _ & _ & ->). fold key. split.
  - intros Hfresh. unfold get_forex_price. fold key.
    rewrite is_valid_update_eq.
    replace (_ <? _) with true by (symmetry; apply Z.ltb_lt; exact Hfresh).
    unfold update. cbn. by rewrite lookup_insert_eq.
  - intros Hstale. apply get_forex_price_miss. fold key.
    rewrite is_valid_update_eq. apply Z.ltb_ge. exact Hstale.
Qed.

Lemma get_forex_price_then_hit_witness :
  let first := get_forex_price (market_at 0 (Some frame_rsi_raises)) empty_cache
                 "EUR/USD" in
  get_forex_price (market_at 299999999 None) (snd first) "EUR/USD" = first ∧
  fst (get_forex_price (market_at 300000000 None) (snd first) "EUR/USD") = None.
Proof.
  cbv zeta.
  destruct (get_forex_price (market_at 0 (Some frame_rsi_raises)) empty_cache
              "EUR/USD") as [r c] eqn:E.
  destruct r as [s|]; [|vm_compute in E; discriminate E].
  pose proof (get_forex_price_then_hit (market_at 0 (Some frame_rsi_raises))
                (market_at 299999999 None) empty_cache "EUR/USD" s) as Hfresh.
  pose proof (get_forex_price_then_hit (market_at 0 (Some frame_rsi_raises))
                (market_at 300000000 None) empty_cache "EUR/USD" s) as Hstale.
  rewrite E in Hfresh, Hstale. cbn [fst snd] in Hfresh, Hstale |- *. split.
  - apply Hfresh; [reflexivity|reflexivity|]. cbn. lia.
  - destruct Hstale as [_ Hs]; [reflexivity|reflexivity|].
    rewrite Hs; [reflexivity|cbn; lia].
Defined.

(** No Yahoo name of the table is itself a key of the table. *)
Lemma yahoo_names_not_keys (sym yahoo : string) :
  FOREX_SYMBOLS !! sym = Some yahoo → FOREX_SYMBOLS !! yahoo = None.
Proof.
  unfold FOREX_SYMBOLS. intros H.
  repeat (apply lookup_insert_Some in H as [[_ <-]|[_ H]];
          [vm_compute; reflexivity|]).
  by rewrite lookup_empty in H.
Qed.

(** X3.  The cache is keyed by the Yahoo name.  After a fetch by a display
    name of the table, a call by its Yahoo name within five minutes of the
    store is a hit on the same entry: it returns the snapshot fetched
    before, whose [symbol] is the display name, not the name asked for. *)
Theorem cache_shared_with_yahoo_name (w later : market) (cache : PriceDataCache)
    (sym yahoo : string) (s : snapshot) :
  let cache' := snd (get_forex_price w cache sym) in
  FOREX_SYMBOLS !! sym = Some yahoo →
  is_valid (now_at_check w) cache yahoo = false →
  fst (get_forex_price w cache sym) = Some s →
  now_at_check later - now_at_store w < 5 * 60 * 1000000 →
  get_forex_price later cache' yahoo = (Some s, cache') ∧ symbol s = sym.
Proof.
  intros cache' Hsym Hmiss Hret Hfresh. subst cache'.
  destruct (get_forex_price_fetched w cache sym s) as (df & q & _ & _ & Hs & Hc).
  { by rewrite Hsym. }
  { exact Hret. }
  rewrite Hc, Hsym. cbn [default from_option id]. split; [|by rewrite Hs].
  unfold get_forex_price.
  rewrite (yahoo_names_not_keys _ _ Hsym). cbn [default from_option id].
  rewrite is_valid_update_eq.
  replace (_ <? _) with true by (symmetry; apply Z.ltb_lt; exact Hfresh).
  unfold update. cbn. by rewrite lookup_insert_eq.
Qed.

Lemma cache_shared_with_yahoo_name_witness :
  let first := get_forex_price (market_at 0 (Some frame_rsi_raises)) empty_cache
                 "EUR/USD" in
  get_forex_price (market_at 1000 None) (snd first) "EURUSD=X" = first ∧
  symbol <$> fst first = Some "EUR/USD".
Proof.
  cbv zeta.
  destruct (get_forex_price (market_at 0 (Some frame_rsi_raises)) empty_cache
              "EUR/USD") as [r c] eqn:E.
  destruct r as [s|]; [|vm_compute in E; discriminate E].
  pose proof (cache_shared_with_yahoo_name (market_at 0 (Some frame_rsi_raises))
                (market_at 1000 None) empty_cache "EUR/USD" "EURUSD=X" s) as H.
  rewrite E in H. cbn [fst snd] in H |- *.
  destruct H as [H1 H2]; [reflexivity|reflexivity|reflexivity|cbn; lia|].
  split; [exact H1|]. cbn. by rewrite H2.
Defined.

(** X4.  A call of [get_forex_price] touches at most the entry of its own
    key: every other key keeps its snapshot, its stamp and so its validity,
    and a call that returns nothing leaves the whole cache as it was, a
    stale entry of its own key included. *)
Theorem get_forex_price_frame (w : market) (cache : PriceDataCache) (sym : string) :
  let key := default sym (FOREX_SYMBOLS !! sym) in
  let cache' := snd (get_forex_price w cache sym) in
  (∀ k, k ≠ key →
     data cache' !! k = data cache !! k ∧
     last_updated cache' !! k = last_updated cache !! k ∧
     ∀ now, is_valid now cache' k = is_valid now cache k) ∧
  (fst (get_forex_price w cache sym) = None → cache' = cache).
Proof.
  cbv zeta. set (key := default sym (FOREX_SYMBOLS !! sym)).
  destruct (is_valid (now_at_check w) cache key) eqn:Hv.
  - unfold get_forex_price. fold key. rewrite Hv. cbn. split; [|done].
    intros k _. done.
  - split; [|apply get_forex_price_none].
    destruct (fst (get_forex_price w cache sym)) as [s|] eqn:Hret.
    + destruct (get_forex_price_fetched w cache sym s Hv Hret)
        as (df & q & _ & _ & _ & ->). fold key.
      intros k Hk. unfold update at 1 2. cbn.
      rewrite !lookup_insert_ne by done. split; [done|]. split; [done|].
      intros now. by apply (is_valid_update_ne now _ cache key k s).
    + rewrite (get_forex_price_none w cache sym Hret). done.
Qed.

(** ** Signal engine, continued *)

(** Membership in a list that is written out. *)
Ltac in_list :=
  repeat first [ apply list_elem_of_here | apply list_elem_of_further ].

(** X5.  [calculate_trading_signals] returns signals exactly when the
    snapshot holds the current price and the four range bounds it reads,
    the settings hold the indicator list, and for each enabled indicator
    the snapshot holds its values (for ATR the settings also hold the risk
    appetite); in every other case it returns nothing. *)
Theorem signals_of_needs (st : settings) (pd : snapshot) :
  is_Some (signals_of st pd) ↔
  (∀ k, k ∈ level_keys → is_Some (fields pd !! k)) ∧
  ∃ enabled, indicators st = Some enabled ∧
    ("ATR" ∈ enabled →
       is_Some (fields pd !! "ATR") ∧ is_Some (risk_appetite st)) ∧
    ("RSI" ∈ enabled → is_Some (fields pd !! "RSI")) ∧
    ("MACD" ∈ enabled →
       is_Some (fields pd !! "MACD") ∧ is_Some (fields pd !! "MACD_Signal") ∧
       is_Some (fields pd !! "MACD_Hist")).
Proof.
  split.
  - intros [sg H]. unfold signals_of in H.
    destruct (fields pd !! "current_price") as [p|] eqn:E1; raised H.
    destruct (fields pd !! "h1_low") as [h1l|] eqn:E2; raised H.
    destruct (fields pd !! "h4_low") as [h4l|] eqn:E3; raised H.
    destruct (fields pd !! "h1_high") as [h1h|] eqn:E4; raised H.
    destruct (fields pd !! "h4_high") as [h4h|] eqn:E5; raised H.
    destruct (indicators st) as [enabled|]; raised H.
    split.
    { intros k Hk. unfold level_keys in Hk.
      repeat (apply elem_of_cons in Hk as [->|Hk]; [eauto|]).
      by apply elem_of_nil in Hk. }
    exists enabled. split; [done|].
    destruct (bool_decide ("ATR" ∈ enabled)) eqn:EA;
      [ destruct (fields pd !! "ATR"); raised H;
        destruct (risk_appetite st); raised H
      | raised H; apply bool_decide_eq_false_1 in EA ];
    (destruct (bool_decide ("RSI" ∈ enabled)) eqn:ER;
      [ destruct (fields pd !! "RSI"); raised H
      | raised H; apply bool_decide_eq_false_1 in ER ]);
    (destruct (bool_decide ("MACD" ∈ enabled)) eqn:EM;
      [ destruct (fields pd !! "MACD"); raised H;
        destruct (fields pd !! "MACD_Signal"); raised H;
        destruct (fields pd !! "MACD_Hist"); raised H
      | raised H; apply bool_decide_eq_false_1 in EM ]);
    repeat split; eauto; try (intros; contradiction).
  - intros (Hp & enabled & Hind & Ha & Hr & Hm). unfold signals_of.
    destruct (Hp "current_price") as [p ->]; [in_list|].
    destruct (Hp "h1_low") as [h1l ->]; [in_list|].
    destruct (Hp "h4_low") as [h4l ->]; [in_list|].
    destruct (Hp "h1_high") as [h1h ->]; [in_list|].
    destruct (Hp "h4_high") as [h4h ->]; [in_list|].
    rewrite Hind. cbn [mbind option_bind].
    destruct (bool_decide ("ATR" ∈ enabled)) eqn:EA;
      [ apply bool_decide_eq_true_1 in EA;
        destruct (Ha EA) as [[atr ->] [risk ->]] | ];
    cbn [mbind option_bind];
    (destruct (bool_decide ("RSI" ∈ enabled)) eqn:ER;
      [ apply bool_decide_eq_true_1 in ER; destruct (Hr ER) as [rsi ->] | ]);
    cbn [mbind option_bind];
    (destruct (bool_decide ("MACD" ∈ enabled)) eqn:EM;
      [ apply bool_decide_eq_true_1 in EM;
        destruct (Hm EM) as ([m1 ->] & [m2 ->] & [m3 ->]) | ]);
    cbn [mbind option_bind]; eauto.
Qed.

(** A snapshot stored without indicator values gives no signals as soon as
    one of the three indicators is enabled. *)
Lemma signals_of_needs_witness :
  is_Some (signals_of default_settings oversold_snapshot) ∧
  signals_of default_settings snapshot_without_indicators = None.
Proof.
  split.
  - apply (signals_of_needs default_settings oversold_snapshot). split.
    + intros k Hk. unfold level_keys in Hk.
      repeat (apply elem_of_cons in Hk as [->|Hk];
              [apply is_Some_true; vm_compute; reflexivity|]).
      by apply elem_of_nil in Hk.
    + exists ["RSI"; "ATR"; "MACD"]. split; [reflexivity|].
      split; [|split]; intros _; repeat split;
        apply is_Some_true; vm_compute; reflexivity.
  - apply eq_None_not_Some. intros H.
    apply (signals_of_needs default_settings snapshot_without_indicators) in H
      as (_ & enabled & [= <-] & _ & Hr & _).
    destruct Hr as [x Hx]; [in_list|]. vm_compute in Hx. discriminate Hx.
Defined.

(** X6.  Computed signals always hold the support (the smaller of the two
    lows), the resistance (the greater of the two highs) and the second
    take profit, which is the resistance; they hold the ATR levels exactly
    when ATR is enabled, the RSI entries exactly when RSI is enabled, and
    the MACD entries exactly when MACD is enabled. *)
Theorem signals_of_keys (st : settings) (pd : snapshot)
    (enabled : list string) (signals : gmap string value) :
  signals_of st pd = Some signals →
  indicators st = Some enabled →
  (∃ h1_low h4_low h1_high h4_high,
     fields pd !! "h1_low" = Some h1_low ∧ fields pd !! "h4_low" = Some h4_low ∧
     fields pd !! "h1_high" = Some h1_high ∧ fields pd !! "h4_high" = Some h4_high ∧
     signals !! "support" = Some (VNum (py_min h1_low h4_low)) ∧
     signals !! "resistance" = Some (VNum (py_max h1_high h4_high)) ∧
     signals !! "tp_2" = Some (VNum (py_max h1_high h4_high))) ∧
  (∀ k, k ∈ atr_signal_keys → (is_Some (signals !! k) ↔ "ATR" ∈ enabled)) ∧
  (∀ k, k ∈ rsi_signal_keys → (is_Some (signals !! k) ↔ "RSI" ∈ enabled)) ∧
  (∀ k, k ∈ macd_signal_keys → (is_Some (signals !! k) ↔ "MACD" ∈ enabled)).
Proof.
  intros H Hind. unfold signals_of in H.
  destruct (fields pd !! "current_price") as [p|]; raised H.
  destruct (fields pd !! "h1_low") as [h1l|]; raised H.
  destruct (fields pd !! "h4_low") as [h4l|]; raised H.
  destruct (fields pd !! "h1_high") as [h1h|]; raised H.
  destruct (fields pd !! "h4_high") as [h4h|]; raised H.
  rewrite Hind in H. raised H.
  destruct (bool_decide ("ATR" ∈ enabled)) eqn:EA;
    [ apply bool_decide_eq_true_1 in EA;
      destruct (fields pd !! "ATR"); raised H;
      destruct (risk_appetite st); raised H
    | raised H; apply bool_decide_eq_false_1 in EA ];
  (destruct (bool_decide ("RSI" ∈ enabled)) eqn:ER;
    [ apply bool_decide_eq_true_1 in ER;
      destruct (fields pd !! "RSI"); raised H
    | raised H; apply bool_decide_eq_false_1 in ER ]);
  (destruct (bool_decide ("MACD" ∈ enabled)) eqn:EM;
    [ apply bool_decide_eq_true_1 in EM;
      destruct (fields pd !! "MACD"); raised H;
      destruct (fields pd !! "MACD_Signal"); raised H;
      destruct (fields pd !! "MACD_Hist"); raised H
    | raised H; apply bool_decide_eq_false_1 in EM ]);
  injection H as <-.
  all: split; [eexists _, _, _, _; repeat split; by simplify_map_eq|].
  all: split; [|split]; intros k Hk;
    unfold atr_signal_keys, rsi_signal_keys, macd_signal_keys in Hk;
    repeat (apply elem_of_cons in Hk as [->|Hk];
            [ simplify_map_eq; split;
              [ try done; intros []; done | try done; intros; eauto ] | ]);
    by apply elem_of_nil in Hk.
Qed.

Lemma signals_of_keys_witness :
  is_Some (signals_of anonymous_settings oversold_snapshot) ∧
  is_Some (anonymous_signals !! "safe_buy_zone") ∧
  anonymous_signals !! "tp_2" = anonymous_signals !! "resistance".
Proof.
  assert (Hs : is_Some (signals_of anonymous_settings oversold_snapshot))
    by (apply is_Some_true; vm_compute; reflexivity).
  destruct (signals_of_keys anonymous_settings oversold_snapshot
              ["RSI"; "ATR"; "MACD"] anonymous_signals
              (Some_default _ _ Hs) eq_refl)
    as ((h1 & h4 & h1h & h4h & _ & _ & _ & _ & _ & Hr & Ht) & Ha & _).
  split; [exact Hs|]. split; [|by rewrite Hr, Ht].
  apply Ha; [unfold atr_signal_keys|]; in_list.
Defined.

(** ** Recommendation, continued *)

(** What computed signals presuppose and always hold. *)
Lemma signals_of_basics (st : settings) (pd : snapshot)
    (signals : gmap string value) :
  signals_of st pd = Some signals →
  ∃ p enabled resistance,
    fields pd !! "current_price" = Some p ∧
    indicators st = Some enabled ∧
    signals !! "resistance" = Some (VNum resistance).
Proof.
  intros H. unfold signals_of in H.
  destruct (fields pd !! "current_price") as [p|]; raised H.
  destruct (fields pd !! "h1_low") as [h1l|]; raised H.
  destruct (fields pd !! "h4_low") as [h4l|]; raised H.
  destruct (fields pd !! "h1_high") as [h1h|]; raised H.
  destruct (fields pd !! "h4_high") as [h4h|]; raised H.
  destruct (indicators st) as [enabled|]; raised H.
  exists p, enabled, (py_max h1h h4h). split; [done|]. split; [done|].
  destruct (bool_decide ("ATR" ∈ enabled));
    [ destruct (fields pd !! "ATR"); raised H;
      destruct (risk_appetite st); raised H | raised H ];
  (destruct (bool_decide ("RSI" ∈ enabled));
    [ destruct (fields pd !! "RSI"); raised H | raised H ]);
  (destruct (bool_decide ("MACD" ∈ enabled));
    [ destruct (fields pd !! "MACD"); raised H;
      destruct (fields pd !! "MACD_Signal"); raised H;
      destruct (fields pd !! "MACD_Hist"); raised H | raised H ]);
  injection H as <-; by simplify_map_eq.
Qed.

(** In computed signals only the two state entries hold a label. *)
Lemma signals_of_labels (st : settings) (pd : snapshot)
    (signals : gmap string value) (k label : string) :
  signals_of st pd = Some signals →
  signals !! k = Some (VStr label) →
  k = "rsi_signal" ∨ k = "macd_signal".
Proof.
  intros H Hk. unfold signals_of in H.
  destruct (fields pd !! "current_price") as [p|]; raised H.
  destruct (fields pd !! "h1_low") as [h1l|]; raised H.
  destruct (fields pd !! "h4_low") as [h4l|]; raised H.
  destruct (fields pd !! "h1_high") as [h1h|]; raised H.
  destruct (fields pd !! "h4_high") as [h4h|]; raised H.
  destruct (indicators st) as [enabled|]; raised H.
  destruct (bool_decide ("ATR" ∈ enabled));
    [ destruct (fields pd !! "ATR"); raised H;
      destruct (risk_appetite st); raised H | raised H ];
  (destruct (bool_decide ("RSI" ∈ enabled));
    [ destruct (fields pd !! "RSI"); raised H | raised H ]);
  (destruct (bool_decide ("MACD" ∈ enabled));
    [ destruct (fields pd !! "MACD"); raised H;
      destruct (fields pd !! "MACD_Signal"); raised H;
      destruct (fields pd !! "MACD_Hist"); raised H | raised H ]);
  injection H as <-;
  repeat (apply lookup_insert_Some in Hk as [[<- Hk]|[_ Hk]];
          [first [discriminate Hk | by left | by right]|]);
  by rewrite lookup_empty in Hk.
Qed.

Lemma contains_NEUTRAL :
  contains "NEUTRAL" NEUTRAL_WAIT = true ∧
  contains "NEUTRAL" STRONG_BUY = false ∧
  contains "NEUTRAL" SELL = false ∧
  contains "NEUTRAL" BUY = false.
Proof. repeat split; vm_compute; reflexivity. Qed.

(** What [generate_recommendation] makes of the outcome of the zone
    rules. *)
Lemma generate_recommendation_unfold (pd : snapshot)
    (signals : gmap string value) (st : settings) (p : float) (rec : string) :
  fields pd !! "current_price" = Some p →
  (if bool_decide ("RSI" ∈ default ["RSI"] (indicators st)) &&
      bool_decide ("ATR" ∈ default ["ATR"] (indicators st))
   then zone_rules p signals NEUTRAL_WAIT else Some NEUTRAL_WAIT) = Some rec →
  generate_recommendation pd signals st
  = ((if bool_decide ("MACD" ∈ default ["MACD"] (indicators st)) &&
         contains "NEUTRAL" rec
      then (if is_label (signals !! "macd_signal") "BULLISH"
            then BULLISH else BEARISH)
      else rec) ++ risk_note st)%string.
Proof.
  intros Hp Hz. unfold generate_recommendation.
  rewrite Hp. cbn [mbind option_bind]. rewrite Hz. reflexivity.
Qed.

(** X7.  [generate_recommendation] never raises: its answer is one of the
    six recommendation texts followed by the risk note of the settings, or
    the bare neutral text of its error branch, which it gives when the
    snapshot has no current price.  On signals computed from the same
    snapshot it never takes the error branch. *)
Theorem generate_recommendation_texts (pd : snapshot)
    (signals : gmap string value) (st : settings) :
  let r := generate_recommendation pd signals st in
  (r = NEUTRAL_ERROR ∨
   ∃ t, t ∈ RECOMMENDATIONS ∧ r = (t ++ risk_note st)%string) ∧
  (fields pd !! "current_price" = None → r = NEUTRAL_ERROR) ∧
  (∀ st', signals_of st' pd = Some signals →
     ∃ t, t ∈ RECOMMENDATIONS ∧ r = (t ++ risk_note st)%string).
Proof.
  cbv zeta.
  assert (Himage : ∀ p rec,
    fields pd !! "current_price" = Some p →
    (if bool_decide ("RSI" ∈ default ["RSI"] (indicators st)) &&
        bool_decide ("ATR" ∈ default ["ATR"] (indicators st))
     then zone_rules p signals NEUTRAL_WAIT else Some NEUTRAL_WAIT) = Some rec →
    ∃ t, t ∈ RECOMMENDATIONS ∧
         generate_recommendation pd signals st = (t ++ risk_note st)%string).
  { intros p rec Hp Hz.
    rewrite (generate_recommendation_unfold pd signals st p rec Hp Hz).
    assert (Hrec : rec ∈ RECOMMENDATIONS).
    { destruct (_ && _) in Hz.
      - destruct (zone_rules_labels _ _ _ Hz) as [-> | [-> | [-> | ->]]];
          unfold RECOMMENDATIONS; in_list.
      - injection Hz as <-. unfold RECOMMENDATIONS; in_list. }
    destruct (_ && contains "NEUTRAL" rec); [|by exists rec].
    destruct (is_label _ _); eexists; (split; [|reflexivity]);
      unfold RECOMMENDATIONS; in_list. }
  split; [|split].
  - destruct (fields pd !! "current_price") as [p|] eqn:Hp.
    + destruct (if bool_decide ("RSI" ∈ default ["RSI"] (indicators st)) &&
                   bool_decide ("ATR" ∈ default ["ATR"] (indicators st))
                then zone_rules p signals NEUTRAL_WAIT else Some NEUTRAL_WAIT)
        as [rec|] eqn:Hz.
      * right. exact (Himage p rec eq_refl Hz).
      * left. unfold generate_recommendation. rewrite Hp.
        cbn [mbind option_bind]. by rewrite Hz.
    + left. unfold generate_recommendation. by rewrite Hp.
  - intros Hp. unfold generate_recommendation. by rewrite Hp.
  - intros st' Hsig.
    assert (Hnum : ∀ k, k ≠ "rsi_signal" → k ≠ "macd_signal" →
              ∀ p, is_Some (le_value p (default (VNum 0) (signals !! k))) ∧
                   (∀ v, signals !! k = Some v → is_Some (ge_value p v))).
    { intros k H1 H2 p. destruct (signals !! k) as [[x|s]|] eqn:Hk; cbn.
      - split; [eauto|]. intros v [= <-]. cbn. eauto.
      - destruct (signals_of_labels _ _ _ _ _ Hsig Hk); contradiction.
      - split; [eauto|]. discriminate. }
    destruct (signals_of_basics st' pd signals Hsig)
      as (p & enabled & r0 & Hp & Hind & Hres0).
    assert (Hres : is_Some (signals !! "resistance")) by eauto.
    assert (Hz : is_Some (zone_rules p signals NEUTRAL_WAIT)).
    { unfold zone_rules.
      destruct (Hnum "safe_buy_zone" ltac:(discriminate) ltac:(discriminate) p)
        as [[b1 ->] _]. cbn [mbind option_bind].
      destruct (b1 && _); [eauto|].
      destruct Hres as [r Hr]. rewrite Hr. cbn [mbind option_bind].
      destruct (Hnum "resistance" ltac:(discriminate) ltac:(discriminate) p)
        as [_ Hge]. destruct (Hge r Hr) as [b2 ->]. cbn [mbind option_bind].
      destruct (b2 && _); [eauto|].
      destruct (Hnum "aggressive_buy_zone" ltac:(discriminate)
                  ltac:(discriminate) p) as [[b3 ->] _].
      cbn [mbind option_bind]. eauto. }
    destruct Hz as [rec Hz].
    apply (Himage p (if bool_decide ("RSI" ∈ default ["RSI"] (indicators st)) &&
                        bool_decide ("ATR" ∈ default ["ATR"] (indicators st))
                     then rec else NEUTRAL_WAIT) Hp).
    rewrite Hz. by destruct (_ && _).
Qed.

(** The MACD state of computed signals. *)
Lemma signals_of_macd_signal (st : settings) (pd : snapshot)
    (enabled : list string) (signals : gmap string value)
    (macd macd_sig : float) :
  signals_of st pd = Some signals →
  indicators st = Some enabled → "MACD" ∈ enabled →
  fields pd !! "MACD" = Some macd →
  fields pd !! "MACD_Signal" = Some macd_sig →
  signals !! "macd_signal" = Some (VStr (macd_signal macd macd_sig)).
Proof.
  intros H Hind Hmacd Hm Hs. unfold signals_of in H.
  destruct (fields pd !! "current_price") as [p|]; raised H.
  destruct (fields pd !! "h1_low") as [h1l|]; raised H.
  destruct (fields pd !! "h4_low") as [h4l|]; raised H.
  destruct (fields pd !! "h1_high") as [h1h|]; raised H.
  destruct (fields pd !! "h4_high") as [h4h|]; raised H.
  rewrite Hind in H. raised H.
  destruct (bool_decide ("ATR" ∈ enabled));
    [ destruct (fields pd !! "ATR"); raised H;
      destruct (risk_appetite st); raised H | raised H ];
  (destruct (bool_decide ("RSI" ∈ enabled));
    [ destruct (fields pd !! "RSI"); raised H | raised H ]);
  rewrite (bool_decide_eq_true_2 _ Hmacd), Hm in H; raised H;
  rewrite Hs in H; raised H;
  (destruct (fields pd !! "MACD_Hist"); raised H);
  injection H as <-; by simplify_map_eq.
Qed.

(** X8.  When MACD is enabled and RSI or ATR is not, the recommendation for
    the signals computed under those settings is decided by the snapshot's
    MACD alone: BULLISH when the MACD line is strictly above its signal
    line, BEARISH in every other case (a NaN among them), each followed by
    the risk note. *)
Theorem macd_decides_without_zones (st : settings) (pd : snapshot)
    (enabled : list string) (signals : gmap string value)
    (macd macd_sig : float) :
  signals_of st pd = Some signals →
  indicators st = Some enabled →
  "MACD" ∈ enabled → "RSI" ∉ enabled ∨ "ATR" ∉ enabled →
  fields pd !! "MACD" = Some macd →
  fields pd !! "MACD_Signal" = Some macd_sig →
  generate_recommendation pd signals st
  = ((if (macd_sig <? macd)%float then BULLISH else BEARISH)
     ++ risk_note st)%string.
Proof.
  intros Hsig Hind Hmacd Hoff Hm Hs.
  destruct (signals_of_basics st pd signals Hsig) as (p & _ & _ & Hp & _).
  rewrite (generate_recommendation_unfold pd signals st p NEUTRAL_WAIT Hp).
  - rewrite Hind. cbn [default from_option id].
    rewrite (bool_decide_eq_true_2 _ Hmacd).
    replace (contains "NEUTRAL" NEUTRAL_WAIT) with true
      by (symmetry; apply contains_NEUTRAL).
    rewrite (signals_of_macd_signal _ _ _ _ _ _ Hsig Hind Hmacd Hm Hs).
    unfold macd_signal. by destruct (macd_sig <? macd)%float.
  - rewrite Hind. cbn [default from_option id].
    destruct Hoff as [Hoff|Hoff]; rewrite (bool_decide_eq_false_2 _ Hoff);
      by rewrite ?andb_false_r.
Qed.

Lemma macd_decides_without_zones_witness :
  is_Some (signals_of macd_only oversold_snapshot) ∧
  generate_recommendation oversold_snapshot macd_only_signals macd_only
  = (BULLISH ++ " (Low Risk)")%string.
Proof.
  assert (Hs : is_Some (signals_of macd_only oversold_snapshot))
    by (apply is_Some_true; vm_compute; reflexivity).
  split; [exact Hs|].
  rewrite (macd_decides_without_zones macd_only oversold_snapshot ["MACD"]
             macd_only_signals 0.5 0.1).
  - vm_compute. reflexivity.
  - apply Some_default, Hs.
  - reflexivity.
  - in_list.
  - left. intros H. apply list_elem_of_singleton in H. discriminate H.
  - vm_compute. reflexivity.
  - vm_compute. reflexivity.
Defined.

(** X9.  On signals computed from the snapshot, with RSI and ATR enabled:
    a price at or above the resistance with the RSI state OVERBOUGHT gives
    SELL, and a price at or below the aggressive buy zone with the RSI
    state NEUTRAL gives BUY, each followed by the risk note and whatever
    the MACD entries. *)
Theorem sell_and_buy_rules (st st' : settings) (pd : snapshot)
    (signals : gmap string value) (p : float) :
  signals_of st' pd = Some signals →
  "RSI" ∈ default ["RSI"] (indicators st) →
  "ATR" ∈ default ["ATR"] (indicators st) →
  fields pd !! "current_price" = Some p →
  (∀ resistance,
     signals !! "resistance" = Some (VNum resistance) →
     (resistance <=? p)%float = true →
     signals !! "rsi_signal" = Some (VStr "OVERBOUGHT") →
     generate_recommendation pd signals st = (SELL ++ risk_note st)%string) ∧
  (∀ zone,
     signals !! "aggressive_buy_zone" = Some (VNum zone) →
     (p <=? zone)%float = true →
     signals !! "rsi_signal" = Some (VStr "NEUTRAL") →
     generate_recommendation pd signals st = (BUY ++ risk_note st)%string).
Proof.
  intros Hsig Hrsi Hatr Hp.
  assert (Hsafe : ∃ b, le_value p (default (VNum 0) (signals !! "safe_buy_zone"))
                       = Some b).
  { destruct (signals !! "safe_buy_zone") as [[x|s]|] eqn:Hk; cbn; eauto.
    destruct (signals_of_labels _ _ _ _ _ Hsig Hk); discriminate. }
  destruct Hsafe as [b1 Hb1].
  destruct (signals_of_basics st' pd signals Hsig) as (_ & _ & r0 & _ & _ & Hres).
  split.
  - intros r Hr Hge Hob.
    apply (zone_rules_precede_macd _ _ _ p); try done.
    unfold zone_rules. rewrite Hb1, Hob, Hr. cbn. rewrite andb_false_r.
    cbn. by rewrite Hge.
  - intros z Hz Hle Hn.
    apply (zone_rules_precede_macd _ _ _ p); try done.
    unfold zone_rules. rewrite Hb1, Hn, Hres, Hz. cbn. rewrite !andb_false_r.
    cbn. by rewrite Hle.
Qed.

Lemma sell_and_buy_rules_witness :
  is_Some (signals_of default_settings overbought_snapshot) ∧
  generate_recommendation overbought_snapshot overbought_signals default_settings
  = SELL.
Proof.
  assert (Hs : is_Some (signals_of default_settings overbought_snapshot))
    by (apply is_Some_true; vm_compute; reflexivity).
  split; [exact Hs|].
  destruct (sell_and_buy_rules default_settings default_settings
              overbought_snapshot overbought_signals 1.5) as [Hsell _].
  - apply Some_default, Hs.
  - in_list.
  - in_list.
  - vm_compute. reflexivity.
  - rewrite (Hsell (py_max 1.3 1.4)).
    + vm_compute. reflexivity.
    + vm_compute. reflexivity.
    + vm_compute. reflexivity.
    + vm_compute. reflexivity.
Defined.

(** ** Alert store, continued *)

Lemma delete_last {A : Type} (l : list A) (x : A) :
  delete (length l) (l ++ [x])%list = l.
Proof. induction l as [|y l IH]; [reflexivity|]. cbn. f_equal. exact IH. Qed.

Lemma dict_set_set {V : Type} (k : Z) (v v' : V) (d : list (Z * V)) :
  dict_set k v' (dict_set k v d) = dict_set k v' d.
Proof.
  induction d as [|[k0 v0] d IH]; cbn.
  - by rewrite Z.eqb_refl.
  - destruct (Z.eqb k k0) eqn:E; cbn; rewrite E; [reflexivity|by rewrite IH].
Qed.

(** X10.  [add_alert] appends to the chat's list an active alert with the
    given symbol and price and the lower-cased type, whether or not an
    equal alert is there already; it touches no other chat's list, writes
    the file and reports success.  Removing the index the new alert got
    gives the chat's list back. *)
Theorem add_alert_appends (now : Z) (m : AlertManager) (chat_id : Z)
    (sym kind : string) (price : float) :
  let m' := snd (add_alert now m chat_id sym kind price) in
  let entry := {| a_symbol := sym; a_type := lower kind; a_price := price;
                  a_created := now; a_active := Some true |} in
  fst (add_alert now m chat_id sym kind price) = true ∧
  get_user_alerts m' chat_id = (get_user_alerts m chat_id ++ [entry])%list ∧
  (∀ c, c ≠ chat_id → get_user_alerts m' c = get_user_alerts m c) ∧
  alerts_file m' = alerts m' ∧
  alerts_writes m' = S (alerts_writes m) ∧
  fst (remove_alert m' chat_id (Z.of_nat (length (get_user_alerts m chat_id))))
    = true ∧
  get_user_alerts
    (snd (remove_alert m' chat_id (Z.of_nat (length (get_user_alerts m chat_id)))))
    chat_id = get_user_alerts m chat_id.
Proof.
  cbv zeta. unfold add_alert, get_user_alerts. cbn [fst snd].
  set (l := default [] (dict_get chat_id (alerts m))).
  set (entry := {| a_symbol := sym; a_type := lower kind; a_price := price;
                   a_created := now; a_active := Some true |}).
  split; [reflexivity|]. split; [|split; [|split; [|split]]].
  - cbn. by rewrite dict_get_set_eq.
  - intros c Hc. cbn. by rewrite dict_get_set_ne.
  - reflexivity.
  - reflexivity.
  - unfold remove_alert. cbn [alerts save_alerts with_alerts].
    rewrite dict_get_set_eq.
    replace (0 <=? Z.of_nat (length l)) with true by (symmetry; apply Z.leb_le; lia).
    replace (Z.of_nat (length l) <? Z.of_nat (length (l ++ [entry])%list))
      with true by (symmetry; apply Z.ltb_lt; rewrite length_app; cbn; lia).
    cbn. split; [reflexivity|].
    rewrite Nat2Z.id, delete_last, dict_set_set, dict_get_set_eq. reflexivity.
Qed.

(** ** The match-and-fire pass under any transport *)

Lemma triggers_not_inactive (p : float) (sym : string) (a : alert) :
  triggers p sym a = true → is_inactive a = false.
Proof.
  unfold triggers, is_inactive. destruct (a_active a) as [[|]|]; done.
Qed.

Section AnyTransport.

Variable send_message : message → bool.

Lemma kept_or_fired_refl (c : Z) (p : float) (sym : string) (l : list alert) :
  Forall2 (kept_or_fired send_message c p sym) l l.
Proof. induction l; constructor; [by left|done]. Qed.

(** The inner loop: every alert is kept or fired, every message sent was
    delivered, each message deactivates one alert, a loop that ends
    normally leaves nothing that triggers, and a loop that raised leaves
    the alert whose message the transport refused, unchanged. *)
Lemma scan_alerts_any (c : Z) (p : float) (sym : string) (l : list alert) :
  Forall2 (kept_or_fired send_message c p sym) l
          (scan_alerts send_message c p sym l).1.1 ∧
  Forall (λ n, send_message n = true) (scan_alerts send_message c p sym l).1.2 ∧
  length (List.filter is_inactive (scan_alerts send_message c p sym l).1.1)
    = (length (List.filter is_inactive l)
       + length (scan_alerts send_message c p sym l).1.2)%nat ∧
  ((scan_alerts send_message c p sym l).2 = true →
   Forall (λ a, triggers p sym a = false)
          (scan_alerts send_message c p sym l).1.1) ∧
  ((scan_alerts send_message c p sym l).2 = false →
   Exists (λ a, triggers p sym a = true ∧
                send_message (alert_message c p sym a) = false)
          (scan_alerts send_message c p sym l).1.1).
Proof.
  induction l as [|a l (IH1 & IH2 & IH3 & IH4 & IH5)]; cbn.
  { repeat split; try constructor. discriminate. }
  destruct (triggers p sym a) eqn:Ht.
  - destruct (send_message (alert_message c p sym a)) eqn:Hs.
    + destruct (scan_alerts send_message c p sym l) as [[l' sent] ok].
      cbn in *. repeat split.
      * constructor; [|exact IH1]. right. by repeat split.
      * constructor; [exact Hs|exact IH2].
      * rewrite (triggers_not_inactive _ _ _ Ht). cbn. lia.
      * intros Hok. constructor; [reflexivity|by apply IH4].
      * intros Hok. apply Exists_cons_tl. by apply IH5.
    + cbn. split; [|split; [|split; [|split]]].
      * apply kept_or_fired_refl.
      * constructor.
      * lia.
      * discriminate.
      * intros _. by apply Exists_cons_hd.
  - destruct (scan_alerts send_message c p sym l) as [[l' sent] ok].
    cbn in *. repeat split.
    + constructor; [by left|exact IH1].
    + exact IH2.
    + destruct (is_inactive a); cbn; lia.
    + intros Hok. constructor; [exact Ht|by apply IH4].
    + intros Hok. apply Exists_cons_tl. by apply IH5.
Qed.

End AnyTransport.

Lemma inactive_count_cons (e : Z * list alert) (d : list (Z * list alert)) :
  inactive_count (e :: d)
  = (length (List.filter is_inactive e.2) + inactive_count d)%nat.
Proof.
  unfold inactive_count. cbn [flat_map].
  by rewrite List.filter_app, length_app.
Qed.

Lemma inactive_count_app (d d' : list (Z * list alert)) :
  inactive_count (d ++ d') = (inactive_count d + inactive_count d')%nat.
Proof.
  induction d as [|e d IH]; [reflexivity|].
  cbn [app]. rewrite !inactive_count_cons, IH. lia.
Qed.

Section AnyTransportPass.

Variable send_message : message → bool.

Lemma entry_kept_or_fired_refl (p : float) (sym : string)
    (d : list (Z * list alert)) :
  Forall2 (entry_kept_or_fired send_message p sym) d d.
Proof.
  induction d as [|e d IH]; constructor; [|exact IH].
  split; [reflexivity|]. apply kept_or_fired_refl.
Qed.

(** The outer loop, from a store that is [done] followed by [todo]. *)
Lemma scan_chats_any (p : float) (sym : string) (todo : list (Z * list alert)) :
  ∀ (m : AlertManager) (done : list (Z * list alert)),
    alerts m = (done ++ todo)%list →
    ∃ todo',
      alerts (pass_manager (scan_chats send_message p sym m done todo))
        = (done ++ todo')%list ∧
      Forall2 (entry_kept_or_fired send_message p sym) todo todo' ∧
      Forall (λ n, send_message n = true)
             (pass_sent (scan_chats send_message p sym m done todo)) ∧
      inactive_count todo'
        = (inactive_count todo
           + length (pass_sent (scan_chats send_message p sym m done todo)))%nat ∧
      (pass_raised (scan_chats send_message p sym m done todo) = false →
         quiet p sym todo' ∧
         (todo ≠ [] →
          alerts_file (pass_manager (scan_chats send_message p sym m done todo))
          = alerts (pass_manager (scan_chats send_message p sym m done todo)))) ∧
      (pass_raised (scan_chats send_message p sym m done todo) = true →
         ¬ quiet p sym todo').
Proof.
  induction todo as [|[c l] rest IH]; intros m done Hm.
  { exists []. cbn. repeat split; try done; try constructor. }
  cbn [scan_chats].
  destruct (scan_alerts_any send_message c p sym l) as (H1 & H2 & H3 & H4 & H5).
  destruct (scan_alerts send_message c p sym l) as [[l' sent] ok]. cbn in H1, H2, H3, H4, H5.
  destruct ok.
  - specialize (IH (save_alerts (with_alerts m (done ++ (c, l') :: rest)%list))
                   (done ++ [(c, l')])%list).
    destruct IH as (rest' & Ha & Hrel & Hsent & Hcount & Hok & Hbad).
    { cbn. by rewrite <- app_assoc. }
    exists ((c, l') :: rest'). cbn [pass_manager pass_sent pass_raised].
    split; [by rewrite Ha, <- app_assoc|].
    split; [constructor; [by split|exact Hrel]|].
    split; [apply Forall_app; by split|].
    split; [rewrite !inactive_count_cons, Hcount, length_app; cbn [snd]; lia|].
    split.
    + intros Hr. destruct (Hok Hr) as [Hq Hfile]. split.
      * constructor; [by apply H4|exact Hq].
      * intros _. destruct rest as [|e rest]; [reflexivity|].
        by apply Hfile.
    + intros Hr Hq. apply (Hbad Hr). by inversion Hq.
  - exists ((c, l') :: rest).
    cbn [pass_manager pass_sent pass_raised with_alerts alerts].
    split; [reflexivity|].
    split; [constructor; [by split|apply entry_kept_or_fired_refl]|].
    split; [exact H2|].
    split; [rewrite !inactive_count_cons; cbn [snd]; lia|].
    split; [discriminate|].
    intros _ Hq. inversion Hq as [|? ? Hl _]; subst. cbn in Hl.
    specialize (H5 eq_refl). apply Exists_exists in H5 as (a & Ha & Ht & _).
    rewrite Forall_forall in Hl. rewrite (Hl a Ha) in Ht. discriminate Ht.
Qed.

End AnyTransportPass.

(** X11.  Whatever the transport does, a pass keeps every chat entry and
    every alert at its place, changes an alert only by deactivating it, and
    only when it triggered and its message was delivered; it records as
    sent only messages that were delivered, and the number of inactive
    alerts grows by exactly the number of messages sent. *)
Theorem check_alerts_any_transport (send_message : message → bool)
    (current_price : float) (sym : string) (m : AlertManager) :
  let r := check_alerts send_message current_price sym m in
  Forall2 (entry_kept_or_fired send_message current_price sym)
          (alerts m) (alerts (pass_manager r)) ∧
  Forall (λ n, send_message n = true) (pass_sent r) ∧
  inactive_count (alerts (pass_manager r))
  = (inactive_count (alerts m) + length (pass_sent r))%nat.
Proof.
  cbv zeta. unfold check_alerts.
  destruct (scan_chats_any send_message current_price sym (alerts m) m []
              eq_refl) as (todo' & Ha & Hrel & Hsent & Hcount & _).
  cbn in Ha. rewrite Ha. done.
Qed.

(** X12.  A pass ends in its [except] branch exactly when it leaves an
    alert that still triggers at the observed price: the alert whose
    message the transport refused stays as it was, to be tried again by the
    next pass.  A pass that ends normally leaves no such alert, and, over a
    store that has chat entries, leaves the file equal to the store. *)
Theorem check_alerts_raised_iff (send_message : message → bool)
    (current_price : float) (sym : string) (m : AlertManager) :
  let r := check_alerts send_message current_price sym m in
  (pass_raised r = false ↔ quiet current_price sym (alerts (pass_manager r))) ∧
  (pass_raised r = false → alerts m ≠ [] →
   alerts_file (pass_manager r) = alerts (pass_manager r)).
Proof.
  cbv zeta. unfold check_alerts.
  destruct (scan_chats_any send_message current_price sym (alerts m) m []
              eq_refl) as (todo' & Ha & _ & _ & _ & Hok & Hbad).
  cbn in Ha. rewrite Ha. split; [split|].
  - intros Hr. by apply Hok.
  - intros Hq.
    destruct (pass_raised (scan_chats send_message current_price sym m []
                             (alerts m))); [|reflexivity].
    by destruct (Hbad eq_refl).
  - intros Hr Hne. rewrite <- Ha. by apply Hok.
Qed.

Lemma check_alerts_raised_iff_witness :
  pass_raised (check_alerts (blocked_by 1) 1.205 "EUR/USD" two_chats) = true ∧
  ¬ quiet 1.205 "EUR/USD"
      (alerts (pass_manager (check_alerts (blocked_by 1) 1.205 "EUR/USD"
                               two_chats))) ∧
  quiet 1.205 "EUR/USD"
      (alerts (pass_manager (check_alerts delivers 1.205 "EUR/USD" two_chats))).
Proof.
  assert (Hr : pass_raised (check_alerts (blocked_by 1) 1.205 "EUR/USD"
                              two_chats) = true) by (vm_compute; reflexivity).
  split; [exact Hr|]. split.
  - intros Hq.
    apply (check_alerts_raised_iff (blocked_by 1) 1.205 "EUR/USD" two_chats)
      in Hq.
    rewrite Hr in Hq. discriminate Hq.
  - apply (check_alerts_raised_iff delivers 1.205 "EUR/USD" two_chats).
    vm_compute. reflexivity.
Defined.

Lemma dict_get_fired_entry (p : float) (sym : string) (c : Z)
    (d : list (Z * list alert)) :
  dict_get c (map (fired_entry p sym) d) = map (fired p sym) <$> dict_get c d.
Proof.
  induction d as [|[c' l] d IH]; [reflexivity|].
  cbn. destruct (Z.eqb c c'); [reflexivity|exact IH].
Qed.

Lemma dict_get_In {V : Type} (c : Z) (d : list (Z * V)) (v : V) :
  dict_get c d = Some v → In (c, v) d.
Proof.
  induction d as [|[c' v'] d IH]; [discriminate|]. cbn.
  destruct (Z.eqb c c') eqn:E.
  - intros [= ->]. apply Z.eqb_eq in E as ->. by left.
  - intros H. right. by apply IH.
Qed.

(** X13.  An alert added with [add_alert] fires on the next pass that
    observes its symbol at a price that crosses its threshold, when the
    transport delivers: its message is sent to the chat that added it, and
    it is stored inactive at the end of the chat's list, after the chat's
    earlier alerts as the pass left them. *)
Theorem added_alert_fires (send_message : message → bool) (now : Z)
    (m : AlertManager) (chat_id : Z) (sym kind : string)
    (price current_price : float) :
  (∀ n, send_message n = true) →
  (lower kind = "above" ∧ (price <=? current_price)%float = true) ∨
  (lower kind = "below" ∧ (current_price <=? price)%float = true) →
  let entry := {| a_symbol := sym; a_type := lower kind; a_price := price;
                  a_created := now; a_active := Some true |} in
  let r := check_alerts send_message current_price sym
             (snd (add_alert now m chat_id sym kind price)) in
  alert_message chat_id current_price sym entry ∈ pass_sent r ∧
  get_user_alerts (pass_manager r) chat_id
  = (map (fired current_price sym) (get_user_alerts m chat_id)
     ++ [deactivate entry])%list.
Proof.
  intros Hsend Hcross entry r. subst r.
  destruct (check_alerts_delivered send_message Hsend current_price sym
              (snd (add_alert now m chat_id sym kind price)))
    as (_ & Ha & Hs & _).
  assert (Ht : triggers current_price sym entry = true).
  { unfold triggers, crossed. cbn. rewrite String.eqb_refl. cbn.
    destruct Hcross as [[-> ->]|[-> ->]]; reflexivity. }
  assert (Hl : dict_get chat_id (alerts (snd (add_alert now m chat_id sym kind price)))
               = Some (get_user_alerts m chat_id ++ [entry])%list).
  { cbn. apply dict_get_set_eq. }
  split.
  - rewrite Hs. apply list_elem_of_In, in_flat_map.
    exists (chat_id, (get_user_alerts m chat_id ++ [entry])%list).
    split; [by apply dict_get_In|].
    unfold messages_for. cbn [fst snd]. apply in_map, filter_In.
    split; [|exact Ht]. apply in_or_app. right. by left.
  - unfold get_user_alerts at 1. rewrite Ha, dict_get_fired_entry, Hl. cbn.
    rewrite map_app. cbn. unfold fired at 2. by rewrite Ht.
Qed.

Lemma added_alert_fires_witness :
  let r := check_alerts delivers 1.25 "EUR/USD"
             (snd (add_alert 5 no_chats 7 "EUR/USD" "Above" 1.2)) in
  pass_sent r
    = [{| note_chat := 7; note_symbol := "EUR/USD"; note_type := "above";
          note_price := 1.2; note_current := 1.25 |}] ∧
  (a_active <$> get_user_alerts (pass_manager r) 7) = [Some false].
Proof.
  cbv zeta.
  destruct (added_alert_fires delivers 5 no_chats 7 "EUR/USD" "Above" 1.2 1.25)
    as [_ Hl].
  - intros n. reflexivity.
  - left. split; vm_compute; reflexivity.
  - split; [vm_compute; reflexivity|]. rewrite Hl. reflexivity.
Defined.

(** ** Dialog: indicators, risk and the settings menu *)

Lemma split_not_nil (sep : ascii) (s : string) : split sep s ≠ [].
Proof.
  destruct s as [|c s]; cbn; [discriminate|].
  destruct (Ascii.eqb c sep); [discriminate|].
  destruct (split sep s); discriminate.
Qed.

(** X14.  In the indicator state an ASCII input other than the Back button
    is split on commas and each token is stripped and upper-cased, so the
    names are accepted in any case.  When every token is RSI, ATR or MACD
    the token list, which is never empty, becomes the chat's indicator
    list, no other chat is touched and the dialog returns to the menu; when
    one token is anything else (an empty token after a trailing comma
    included) nothing is stored and the state stays. *)
Theorem set_indicators_validates (text : string) (chat_id : Z)
    (us : UserSettings) :
  text ≠ BACK → ascii_only text = true →
  (Forall (λ i, i ∈ VALID_INDICATORS) (indicator_tokens text) →
   ∃ us',
     set_indicators text chat_id us
     = (MENU, us',
        [IndicatorsSet (indicator_tokens text); Known BackToMainMenu]) ∧
     indicators (get_user_settings us' chat_id) = Some (indicator_tokens text) ∧
     indicator_tokens text ≠ [] ∧
     (∀ c, c ≠ chat_id → get_user_settings us' c = get_user_settings us c)) ∧
  (¬ Forall (λ i, i ∈ VALID_INDICATORS) (indicator_tokens text) →
   set_indicators text chat_id us = (SET_INDICATORS, us, [UseIndicators])).
Proof.
  intros Hback _. unfold set_indicators.
  apply String.eqb_neq in Hback as ->.
  destruct (forallb _ (indicator_tokens text)) eqn:Hall.
  - split; [|intros Hnot; exfalso; apply Hnot].
    + intros _. eexists. split; [reflexivity|].
      destruct (update_setting_stores us chat_id
                  (Indicators (indicator_tokens text))) as (Hd & Ho & _).
      split; [|split].
      * unfold get_user_settings. rewrite Hd. reflexivity.
      * unfold indicator_tokens. intros H%map_eq_nil. by apply split_not_nil in H.
      * intros c Hc. unfold get_user_settings. by rewrite Ho.
    + apply Forall_forall. intros i Hi.
      rewrite forallb_forall in Hall.
      apply list_elem_of_In in Hi. specialize (Hall i Hi).
      by apply bool_decide_eq_true_1 in Hall.
  - split; [|reflexivity]. intros Hvalid. exfalso.
    assert (forallb (λ i, bool_decide (i ∈ VALID_INDICATORS))
              (indicator_tokens text) = true); [|congruence].
    apply forallb_forall. intros i Hi. apply bool_decide_eq_true_2.
    rewrite Forall_forall in Hvalid. apply Hvalid. by apply list_elem_of_In.
Qed.

Lemma set_indicators_validates_witness :
  (∃ us', set_indicators "rsi, Macd" 7 no_user_settings
          = (MENU, us', [IndicatorsSet ["RSI"; "MACD"]; Known BackToMainMenu]) ∧
          indicators (get_user_settings us' 7) = Some ["RSI"; "MACD"]) ∧
  set_indicators "RSI," 7 no_user_settings
  = (SET_INDICATORS, no_user_settings, [UseIndicators]).
Proof.
  split.
  - destruct (set_indicators_validates "rsi, Macd" 7 no_user_settings)
      as [Hok _].
    + intros H. vm_compute in H. discriminate H.
    + reflexivity.
    + destruct Hok as (us' & Hr & Hi & _).
      * change (indicator_tokens "rsi, Macd") with ["RSI"; "MACD"].
        repeat constructor; unfold VALID_INDICATORS; in_list.
      * exists us'. split; [exact Hr|exact Hi].
  - apply (set_indicators_validates "RSI," 7 no_user_settings).
    + intros H. vm_compute in H. discriminate H.
    + reflexivity.
    + change (indicator_tokens "RSI,") with ["RSI"; ""].
      intros H. inversion H as [|? ? _ H2]; subst.
      inversion H2 as [|? ? H3 _]; subst.
      unfold VALID_INDICATORS in H3.
      repeat (apply elem_of_cons in H3 as [H3|H3]; [discriminate H3|]).
      by apply elem_of_nil in H3.
Defined.

(** X15.  In the risk state one of the labels Low, Medium and High, spelled
    exactly so, stores its lower-case form as the chat's risk appetite and
    returns to the menu; the stored level is one the signal engine's table
    knows, with the factor 0.3, 0.5 or 0.7 and the matching risk note.  Any
    other input but the Back button stores nothing, sends nothing and stays
    in the state. *)
Theorem set_risk_levels (text : string) (chat_id : Z) (us : UserSettings) :
  text ≠ BACK →
  (text ∈ ["Low"; "Medium"; "High"] →
   ∃ us',
     set_risk text chat_id us
     = (MENU, us', [RiskSet text; Known BackToMainMenu]) ∧
     risk_appetite (get_user_settings us' chat_id) = Some (lower text) ∧
     ((text = "Low" ∧ risk_factor (lower text) = 0.3%float ∧
       risk_note (get_user_settings us' chat_id) = " (Low Risk)") ∨
      (text = "Medium" ∧ risk_factor (lower text) = 0.5%float ∧
       risk_note (get_user_settings us' chat_id) = "") ∨
      (text = "High" ∧ risk_factor (lower text) = 0.7%float ∧
       risk_note (get_user_settings us' chat_id) = " (High Risk)"))) ∧
  (text ∉ ["Low"; "Medium"; "High"] →
   set_risk text chat_id us = (SET_RISK, us, [])).
Proof.
  intros Hback. unfold set_risk.
  apply String.eqb_neq in Hback as ->. split.
  - intros Hin. rewrite (bool_decide_eq_true_2 _ Hin).
    eexists. split; [reflexivity|].
    destruct (update_setting_stores us chat_id (RiskAppetite (lower text)))
      as (Hd & _).
    assert (Hrisk : risk_appetite (get_user_settings
                      (snd (update_setting us chat_id
                              (RiskAppetite (lower text)))) chat_id)
                    = Some (lower text)).
    { unfold get_user_settings. rewrite Hd. reflexivity. }
    split; [exact Hrisk|].
    unfold risk_note. rewrite Hrisk. cbn [default from_option id].
    repeat (apply elem_of_cons in Hin as [->|Hin]);
      [left|right; left|right; right|by apply elem_of_nil in Hin];
      repeat split; reflexivity.
  - intros Hout. by rewrite (bool_decide_eq_false_2 _ Hout).
Qed.

Lemma set_risk_levels_witness :
  (∃ us', set_risk "High" 7 no_user_settings
          = (MENU, us', [RiskSet "High"; Known BackToMainMenu]) ∧
          risk_appetite (get_user_settings us' 7) = Some "high") ∧
  set_risk "high" 7 no_user_settings = (SET_RISK, no_user_settings, []).
Proof.
  split.
  - destruct (set_risk_levels "High" 7 no_user_settings) as [Hok _].
    + intros H. vm_compute in H. discriminate H.
    + destruct Hok as (us' & Hr & Hrisk & _); [in_list|].
      exists us'. split; [exact Hr|exact Hrisk].
  - apply (set_risk_levels "high" 7 no_user_settings).
    + intros H. vm_compute in H. discriminate H.
    + intros H.
      repeat (apply elem_of_cons in H as [H|H]; [discriminate H|]).
      by apply elem_of_nil in H.
Defined.

Lemma notification_effective (us : UserSettings) (chat_id : Z) :
  is_Some (notification (get_user_settings us chat_id)).
Proof.
  unfold get_user_settings, merge. cbn.
  destruct (notification (default no_settings (user_settings_dict us !! chat_id)));
    cbn; eauto.
Qed.

(** X16.  In the settings menu the notification button flips the chat's
    notification flag and changes no other setting of the chat and no
    setting of another chat; pressing it twice restores the chat's settings.
    Every other input leaves the settings store as it is. *)
Theorem handle_settings_toggle (chat_id : Z) (us : UserSettings) :
  let once := handle_settings "4. Notifications" chat_id us in
  let twice := handle_settings "4. Notifications" chat_id once.1.2 in
  once.1.1 = SETTINGS ∧
  (∃ b, notification (get_user_settings us chat_id) = Some b ∧
        get_user_settings once.1.2 chat_id
        = assign (Notification (negb b)) (get_user_settings us chat_id)) ∧
  (∀ c, c ≠ chat_id →
        get_user_settings once.1.2 c = get_user_settings us c) ∧
  get_user_settings twice.1.2 chat_id = get_user_settings us chat_id ∧
  (∀ text, text ≠ "4. Notifications" →
           (handle_settings text chat_id us).1.2 = us).
Proof.
  cbv zeta.
  assert (Hstep : ∀ us0,
    (handle_settings "4. Notifications" chat_id us0).1.2
    = snd (update_setting us0 chat_id
             (Notification (negb (default true
                (notification (get_user_settings us0 chat_id))))))).
  { intros us0. unfold handle_settings.
    replace (String.eqb "4. Notifications" BACK) with false
      by (vm_compute; reflexivity).
    reflexivity. }
  assert (Hget : ∀ us0,
    get_user_settings (handle_settings "4. Notifications" chat_id us0).1.2 chat_id
    = assign (Notification (negb (default true
                (notification (get_user_settings us0 chat_id)))))
             (get_user_settings us0 chat_id)).
  { intros us0. rewrite Hstep.
    destruct (update_setting_stores us0 chat_id
      (Notification (negb (default true
         (notification (get_user_settings us0 chat_id)))))) as (Hd & _).
    unfold get_user_settings at 1. rewrite Hd. apply merge_assign. }
  destruct (notification_effective us chat_id) as [b Hb].
  split; [|split; [|split; [|split]]].
  - unfold handle_settings.
    replace (String.eqb "4. Notifications" BACK) with false
      by (vm_compute; reflexivity).
    reflexivity.
  - exists b. split; [exact Hb|]. rewrite Hget, Hb. reflexivity.
  - intros c Hc. rewrite Hstep.
    destruct (update_setting_stores us chat_id
      (Notification (negb (default true
         (notification (get_user_settings us chat_id)))))) as (_ & Ho & _).
    unfold get_user_settings. by rewrite Ho.
  - rewrite Hget, Hget, Hb. cbn [default from_option id].
    destruct (get_user_settings us chat_id) as [tz uf ind n ra sy].
    cbn in Hb. subst n. cbn. by rewrite negb_involutive.
  - intros text Htext. unfold handle_settings.
    apply String.eqb_neq in Htext. rewrite Htext. clear Htext.
    repeat (destruct (String.eqb text _); [reflexivity|]). reflexivity.
Qed.

(** ** Dialog: the alert setup flag *)

(** X17.  The flag that New Alert sets is not cleared by backing out: after
    New Alert, Back from the symbol selection (which leads to the alert
    menu) and Back from the alert menu (which leads to the main menu), the
    flag is still set, and a later symbol selection with a valid symbol
    asks for an alert price instead of storing the chat's symbols.  The
    chat's alert menu is taken to render, that is, each of its alerts has
    the [active] key. *)
Theorem alert_setup_flag_survives_back (chat_id : Z) (ud : user_data)
    (m : AlertManager) (us : UserSettings) (text : string) :
  alerts_menu_raises m chat_id = false →
  text ≠ BACK → valid_symbols text ≠ [] →
  let step1 := handle_alerts NEW_ALERT chat_id ud m in
  let step2 := handle_symbol_selection BACK chat_id step1.1.1.2 us in
  let step3 := handle_alerts BACK chat_id step2.1.1.2 step1.1.2 in
  let step4 := handle_symbol_selection text chat_id step3.1.1.2 step2.1.2 in
  step1.1.1.1 = SYMBOL_SELECTION ∧ step2.1.1.1 = ALERTS ∧
  step3.1.1.1 = MENU ∧
  alert_setup step3.1.1.2 = Some true ∧
  step4.1.1.1 = SET_ALERT_PRICE ∧ step4.1.2 = us.
Proof.
  intros _ Hback Hvalid. cbv zeta.
  assert (H1 : handle_alerts NEW_ALERT chat_id ud m
               = (SYMBOL_SELECTION, with_alert_setup ud, m, [ShowSymbolSelection])).
  { unfold handle_alerts.
    replace (String.eqb NEW_ALERT BACK) with false by (vm_compute; reflexivity).
    by rewrite String.eqb_refl. }
  rewrite H1. cbn [fst snd].
  assert (H2 : handle_symbol_selection BACK chat_id (with_alert_setup ud) us
               = (ALERTS, with_alert_setup ud, us, [ShowAlertsMenu])).
  { unfold handle_symbol_selection. by rewrite String.eqb_refl. }
  rewrite H2. cbn [fst snd].
  assert (H3 : handle_alerts BACK chat_id (with_alert_setup ud) m
               = (MENU, with_alert_setup ud, m, [Known BackToMainMenu])).
  { unfold handle_alerts. by rewrite String.eqb_refl. }
  rewrite H3. cbn [fst snd].
  repeat split; try reflexivity.
  all: unfold handle_symbol_selection;
    apply String.eqb_neq in Hback as ->;
    destruct (valid_symbols text); [done|reflexivity].
Qed.

Lemma alert_setup_flag_survives_back_witness :
  let step3 := handle_alerts BACK 7 (with_alert_setup fresh_user_data) no_chats in
  (handle_symbol_selection "GBP/USD" 7 step3.1.1.2 no_user_settings).1.1.1
  = SET_ALERT_PRICE.
Proof.
  destruct (alert_setup_flag_survives_back 7 fresh_user_data no_chats
              no_user_settings "GBP/USD") as (_ & _ & _ & _ & H & _).
  - reflexivity.
  - intros H. vm_compute in H. discriminate H.
  - intros H. vm_compute in H. discriminate H.
  - exact H.
Defined.

(** ** Dialog: the Delete buttons *)

Lemma digit_not_space (c : ascii) (d : Z) :
  digit_value c = Some d → is_space c = false.
Proof.
  destruct c as [[] [] [] [] [] [] [] []]; vm_compute; congruence.
Qed.

Lemma words_digits (s : string) :
  all_digits s = true → s ≠ EmptyString → words s = [s].
Proof.
  induction s as [|c s IH]; [done|]. cbn. intros Hd _.
  destruct (digit_value c) as [d|] eqn:Hc; [|discriminate].
  rewrite (digit_not_space _ _ Hc).
  destruct s as [|c' s]; [reflexivity|].
  cbn in Hd. destruct (digit_value c') as [d'|] eqn:Hc'; [|discriminate].
  rewrite (digit_not_space _ _ Hc').
  rewrite IH; [reflexivity| |discriminate]. cbn. by rewrite Hc'.
Qed.

Lemma digit_not_blank (c : ascii) (d : Z) :
  digit_value c = Some d → is_blank c = false.
Proof.
  destruct c as [[] [] [] [] [] [] [] []]; vm_compute; congruence.
Qed.

Lemma drop_blanks_digits (s : string) :
  all_digits s = true → drop_blanks s = s.
Proof.
  induction s as [|c s IH]; [reflexivity|]. cbn. intros Hd.
  destruct (digit_value c) as [d|] eqn:Hc; [|discriminate].
  rewrite (IH Hd), (digit_not_blank _ _ Hc). by destruct s.
Qed.

Lemma blanks_digits (s : string) :
  all_digits s = true → drop_blanks (skip_blanks s) = s.
Proof.
  intros Hd.
  replace (skip_blanks s) with s; [by apply drop_blanks_digits|].
  destruct s as [|c s]; [reflexivity|]. cbn in *.
  destruct (digit_value c) as [d|] eqn:Hc; [|discriminate].
  by rewrite (digit_not_blank _ _ Hc).
Qed.

Lemma string_of_uint_digits (u : Decimal.uint) :
  all_digits (DecimalString.NilEmpty.string_of_uint u) = true.
Proof. induction u; cbn; done. Qed.

Lemma int_digits_cons (acc d : Z) (c : ascii) (s : string) :
  digit_value c = Some d →
  int_digits acc (String c s) = int_digits (10 * acc + d) s.
Proof. intros H. cbn [int_digits]. by rewrite H. Qed.

(** The parser reads the decimal text of a number back. *)
Lemma int_digits_of_uint (u : Decimal.uint) :
  ∀ acc : nat,
    int_digits (Z.of_nat acc) (DecimalString.NilEmpty.string_of_uint u)
    = Some (Z.of_nat (Nat.of_uint_acc u acc)).
Proof.
  induction u as [|u IH|u IH|u IH|u IH|u IH|u IH|u IH|u IH|u IH|u IH];
    intros acc;
    cbn [DecimalString.NilEmpty.string_of_uint Nat.of_uint_acc];
    [reflexivity|..].
  all: erewrite int_digits_cons by (vm_compute; reflexivity).
  all: rewrite Nat.tail_mul_spec.
  all: match goal with
       | |- int_digits ?z _ = Some (Z.of_nat (Nat.of_uint_acc _ ?n)) =>
           replace z with (Z.of_nat n) by lia
       end.
  all: apply IH.
Qed.

Lemma py_int_of_uint (u : Decimal.uint) :
  DecimalString.NilEmpty.string_of_uint u ≠ EmptyString →
  py_int (DecimalString.NilEmpty.string_of_uint u)
  = Some (Z.of_nat (Nat.of_uint u)).
Proof.
  intros Hne. unfold py_int.
  rewrite (blanks_digits _ (string_of_uint_digits u)).
  pose proof (int_digits_of_uint u 0) as H. fold (Nat.of_uint u) in H.
  destruct u; cbn in Hne |- *; try done; exact H.
Qed.

Lemma py_int_decimal (n : nat) :
  py_int (DecimalString.NilEmpty.string_of_uint (Nat.to_uint (S n)))
  = Some (Z.of_nat (S n)) ∧
  DecimalString.NilEmpty.string_of_uint (Nat.to_uint (S n)) ≠ EmptyString.
Proof.
  assert (Hne : DecimalString.NilEmpty.string_of_uint (Nat.to_uint (S n))
                ≠ EmptyString).
  { intros H. pose proof (DecimalNat.Unsigned.of_to (S n)) as Hof.
    destruct (Nat.to_uint (S n)); try discriminate H. discriminate Hof. }
  split; [|exact Hne].
  by rewrite (py_int_of_uint _ Hne), DecimalNat.Unsigned.of_to.
Qed.

(** What [handle_alerts] does with the prefix followed by decimal digits:
    the digits are the last word of the text, and neither of the two other
    buttons has this text. *)
Lemma handle_alerts_delete (d : string) (n : Z) (chat_id : Z) (ud : user_data)
    (m : AlertManager) :
  all_digits d = true → d ≠ EmptyString → py_int d = Some n →
  handle_alerts (DELETE_PREFIX ++ d) chat_id ud m
  = (ALERTS, ud, (remove_alert m chat_id (n - 1)).2,
     ((if (remove_alert m chat_id (n - 1)).1 then [AlertDeleted] else []) ++
      (if alerts_menu_raises (remove_alert m chat_id (n - 1)).2 chat_id
       then [InvalidSelection] else [Known ShowAlertsMenu]))%list).
Proof.
  intros Hd Hne Hn. unfold handle_alerts.
  replace (String.eqb (DELETE_PREFIX ++ d) BACK) with false by reflexivity.
  replace (String.eqb (DELETE_PREFIX ++ d) NEW_ALERT) with false by reflexivity.
  replace (String.prefix DELETE_PREFIX (DELETE_PREFIX ++ d)) with true
    by (destruct d; reflexivity).
  replace (words (DELETE_PREFIX ++ d)) with ("âŒ" :: "Delete" :: words d).
  2:{ unfold DELETE_PREFIX. cbn. reflexivity. }
  rewrite (words_digits d Hd Hne). cbn [last mbind option_bind].
  rewrite Hn. by destruct (remove_alert m chat_id (n - 1)).
Qed.

(** X18.  The Delete buttons of the alert menu do what they say: the button
    rendered for the alert at index [i] (its text is the prefix and [i + 1]
    in decimal) removes exactly that alert from the chat's list when the
    list has one at that index, and answers with the deletion notice; when
    the list is shorter it removes nothing.  Number 0 after the prefix
    removes nothing either: it never reaches the last alert.  The dialog
    stays in the alert state in every case. *)
Theorem delete_button_deletes (i : nat) (chat_id : Z) (ud : user_data)
    (m : AlertManager) :
  let r := handle_alerts (delete_button i) chat_id ud m in
  let l := get_user_alerts m chat_id in
  r.1.1.1 = ALERTS ∧ r.1.1.2 = ud ∧
  ((i < length l)%nat →
   get_user_alerts r.1.2 chat_id = delete i l ∧
   (∀ c, c ≠ chat_id → get_user_alerts r.1.2 c = get_user_alerts m c) ∧
   AlertDeleted ∈ r.2) ∧
  ((length l ≤ i)%nat → r.1.2 = m ∧ AlertDeleted ∉ r.2) ∧
  (handle_alerts (DELETE_PREFIX ++ "0") chat_id ud m).1.2 = m.
Proof.
  cbv zeta. unfold delete_button.
  destruct (py_int_decimal i) as [Hparse Hne].
  rewrite (handle_alerts_delete _ _ chat_id ud m
             (string_of_uint_digits _) Hne Hparse).
  replace (Z.of_nat (S i) - 1) with (Z.of_nat i) by lia.
  cbn [fst snd]. split; [reflexivity|]. split; [reflexivity|].
  unfold get_user_alerts. unfold remove_alert.
  destruct (dict_get chat_id (alerts m)) as [l|] eqn:Hl; cbn [default from_option id].
  - replace (0 <=? Z.of_nat i) with true by (symmetry; apply Z.leb_le; lia).
    cbn [andb]. split; [|split].
    + intros Hi.
      replace (Z.of_nat i <? Z.of_nat (length l)) with true
        by (symmetry; apply Z.ltb_lt; lia).
      cbn [fst snd alerts save_alerts with_alerts].
      rewrite dict_get_set_eq, Nat2Z.id. cbn [default from_option id].
      split; [reflexivity|]. split.
      * intros c Hc. by rewrite dict_get_set_ne.
      * apply elem_of_app. left. apply list_elem_of_here.
    + intros Hi.
      replace (Z.of_nat i <? Z.of_nat (length l)) with false
        by (symmetry; apply Z.ltb_ge; lia).
      cbn [fst snd]. split; [reflexivity|].
      cbn [app]. destruct (alerts_menu_raises m chat_id);
        intros H%list_elem_of_singleton; discriminate H.
    + rewrite (handle_alerts_delete "0" 0 chat_id ud m); try done.
      unfold remove_alert. rewrite Hl. reflexivity.
  - split; [cbn; lia|]. split.
    + intros _. cbn [fst snd]. split; [reflexivity|].
      cbn [app]. destruct (alerts_menu_raises m chat_id);
        intros H%list_elem_of_singleton; discriminate H.
    + rewrite (handle_alerts_delete "0" 0 chat_id ud m); try done.
      unfold remove_alert. rewrite Hl. reflexivity.
Qed.

Lemma delete_button_deletes_witness :
  delete_button 1 = (DELETE_PREFIX ++ "2")%string ∧
  get_user_alerts (handle_alerts (delete_button 1) 1 fresh_user_data two_chats).1.2 1
  = [alert_above] ∧
  (handle_alerts (delete_button 2) 1 fresh_user_data two_chats).1.2 = two_chats.
Proof.
  split; [reflexivity|]. split.
  - destruct (delete_button_deletes 1 1 fresh_user_data two_chats)
      as (_ & _ & Hin & _).
    destruct Hin as [-> _]; [cbn; lia|reflexivity].
  - destruct (delete_button_deletes 2 1 fresh_user_data two_chats)
      as (_ & _ & _ & Hout & _).
    apply Hout. cbn. lia.
Defined.
